(** * RAG agent backend: configuration check, session store and the
      request pipeline of [RAGAgentService]

    Shallow embedding of
    - [src/rag_agent/config.py] ([Config.validate]) and
    - [src/rag_agent/services/rag_agent_service.py]
      ([clear_conversation], [process_request]).

    Conventions of the embedding.
    - A Python [Optional[str]] is an [option string]; Python truthiness
      ([if x], [x or y], [a and b]) is written out with [truthy_str] and
      [truthy_filters]: [None], the empty string and the empty dict are
      falsy.
    - A [dict] with string keys is a [gmap string _]; a [set] of strings is
      a [gset string].
    - Similarity and confidence scores are Python floats: binary64
      numbers, here the primitive type [float] with its IEEE 754
      operations, so sums and quotients round as they do in the program.
      Rationals ([Q]) appear only where a statement speaks of exact
      values.
    - The collaborators (retrieval tool, completion client, response
      validator, clock) are fields of an environment record; every call to
      them, and every log line, is recorded in a trace. *)

From Stdlib Require Import QArith Qminmax DecimalString Floats.
From Stdlib Require Uint63.
From stdpp Require Import gmap strings list fin_maps.

Set Warnings "-inexact-float".

(** ** Python helpers *)

Module Py.

(** [bool(s)] for an [Optional[str]]. *)
Definition truthy_str (o : option string) : bool :=
  match o with
  | None => false
  | Some s => negb (String.eqb s "")
  end.

(** [a or b] where [a] is an [Optional[str]] and [b] a string. *)
Definition or_str (a : option string) (b : string) : string :=
  match a with
  | Some s => if String.eqb s "" then b else s
  | None => b
  end.

(** [repr] of a string without quote characters: ['QDRANT_URL']. *)
Definition repr_str (s : string) : string := "'" +:+ s +:+ "'".

(** [", ".join(l)]. *)
Fixpoint join (sep : string) (l : list string) : string :=
  match l with
  | [] => ""
  | [x] => x
  | x :: rest => x +:+ sep +:+ join sep rest
  end.

(** [repr] of a list of strings: [['A', 'B']]. *)
Definition repr_list (l : list string) : string :=
  "[" +:+ join ", " (map repr_str l) +:+ "]".

(** [needle in hay] on strings. *)
Fixpoint contains (needle hay : string) : bool :=
  String.prefix needle hay ||
  match hay with
  | EmptyString => false
  | String _ rest => contains needle rest
  end.

(** [str(n)] for an integer. *)
Definition str_int (n : Z) : string := NilZero.string_of_int (Z.to_int n).

End Py.

(** ** Results of fallible code *)

(** The exceptions the modelled code raises or lets through. *)
Inductive Exn : Type :=
| ValueError (msg : string)
| KeyError (key : string)
| CollaboratorError (msg : string).

Inductive result (A : Type) : Type :=
| Ok (a : A)
| Raise (e : Exn).
Arguments Ok {A} a.
Arguments Raise {A} e.

(** ** Configuration ([config.py]) *)

Module Config.

(** The class attributes [validate] reads; each is the value of
    [os.getenv(NAME)]: [None] when the variable is unset, otherwise its
    (possibly empty) text. *)
Record t : Type := mk {
  OPENROUTER_API_KEY : option string;
  QDRANT_URL : option string;
  QDRANT_API_KEY : option string;
  COHERE_API_KEY : option string
}.

(** [getattr(cls, name, None)]: the class has no attribute
    [GEMINI_API_KEY], so that name (like any other) yields [None]. *)
Definition getattr (cls : t) (name : string) : option string :=
  if String.eqb name "OPENROUTER_API_KEY" then OPENROUTER_API_KEY cls
  else if String.eqb name "QDRANT_URL" then QDRANT_URL cls
  else if String.eqb name "QDRANT_API_KEY" then QDRANT_API_KEY cls
  else if String.eqb name "COHERE_API_KEY" then COHERE_API_KEY cls
  else None.

Definition required_vars : list string :=
  ["OPENROUTER_API_KEY"; "QDRANT_URL"; "QDRANT_API_KEY"].

Definition llm_message : string :=
  "Either OPENROUTER_API_KEY or GEMINI_API_KEY must be set".

Definition cohere_message : string :=
  "COHERE_API_KEY must be set for embeddings".

Definition missing_message (missing_vars : list string) : string :=
  "Missing required environment variables: " +:+ Py.repr_list missing_vars.

(** [missing_vars = [var for var in required_vars if not getattr(cls, var)]] *)
Definition missing_vars (cls : t) : list string :=
  List.filter (fun var => negb (Py.truthy_str (getattr cls var))) required_vars.

(** [Config.validate] (config.py, lines 69-92); [Ok tt] is the normal
    return. *)
Definition validate (cls : t) : result unit :=
  let openrouter_key := getattr cls "OPENROUTER_API_KEY" in
  let gemini_key := getattr cls "GEMINI_API_KEY" in
  let llm_key_present := Py.truthy_str openrouter_key || Py.truthy_str gemini_key in
  if negb llm_key_present then Raise (ValueError llm_message)
  else
    let cohere_key := getattr cls "COHERE_API_KEY" in
    if negb (Py.truthy_str cohere_key) then Raise (ValueError cohere_message)
    else
      match missing_vars cls with
      | [] => Ok tt
      | mv => Raise (ValueError (missing_message mv))
      end.

(** The four mandatory settings, by name. *)
Definition mandatory : list string :=
  ["OPENROUTER_API_KEY"; "QDRANT_URL"; "QDRANT_API_KEY"; "COHERE_API_KEY"].

(** A variable is unset when [os.getenv] gave [None]. *)
Definition is_unset (cls : t) (name : string) : bool :=
  match getattr cls name with None => true | Some _ => false end.

(** A variable is missing for [validate] when its value is falsy: unset
    or empty. *)
Definition is_missing (cls : t) (name : string) : bool :=
  negb (Py.truthy_str (getattr cls name)).

End Config.

(** ** Session store *)

(** Modelled from the spec: [models/agent_models.py] is absent;
    [ConversationSession] carries its id and creation time (spec, section 3). *)
Record ConversationSession : Type := mkSession {
  session_id : string;
  session_created : Z
}.

(** [clear_conversation] (rag_agent_service.py, lines 107-113), with the
    session dict passed explicitly: the result is the returned flag and the
    dict after the call. *)
Definition clear_conversation (sessions : gmap string ConversationSession)
    (id : string) : bool * gmap string ConversationSession :=
  match sessions !! id with
  | Some _ => (true, delete id sessions)
  | None => (false, sessions)
  end.

(** ** Data model of the request pipeline *)

Inductive QueryType : Type := GENERAL | CHAPTER_SPECIFIC | USER_CONTEXT.

Global Instance QueryType_eq_dec : EqDecision QueryType.
Proof. solve_decision. Defined.

(** Modelled from the spec: [models/agent_models.py] is absent; the
    records below follow the field lists of the spec's data model (section
    3) and the keyword arguments [process_request] passes to the
    constructors. *)
Module AgentRequest.
Record t : Type := mk {
  query : string;
  query_type : QueryType;
  chapter_filter : option string;
  filters : option (gmap string string);
  top_k : Z;
  user_context : option string;
  conversation_id : option string
}.
End AgentRequest.

Module RetrievedChunk.
Record t : Type := mk {
  id : string;
  content : string;
  source_url : string;
  chapter : option string;
  section : option string;
  similarity_score : float;
  confidence_score : float;
  retrieval_timestamp : Z;
  metadata : gmap string string
}.
End RetrievedChunk.

Module AgentResponse.
Record t : Type := mk {
  response : string;
  query : string;
  retrieved_chunks : list RetrievedChunk.t;
  source_attribution : list string;
  confidence_score : float;
  query_type : QueryType;
  conversation_id : string;
  has_sufficient_context : bool;
  hallucination_prevention_applied : bool
}.
End AgentResponse.

(** The value under ["retrieval_timestamp"] in a raw record: ISO text or
    an already built datetime (seconds). *)
Inductive RawTimestamp : Type :=
| TsText (s : string)
| TsDatetime (t : Z).

(** A raw record returned by the retrieval tool: a dict, so any key may
    be absent ([None]). *)
Module RawItem.
Record t : Type := mk {
  id : option string;
  content : option string;
  source_url : option string;
  chapter : option string;
  section : option string;
  similarity_score : option float;
  confidence_score : option float;
  retrieval_timestamp : option RawTimestamp;
  metadata : option (gmap string string)
}.
End RawItem.

(** The arguments of one [retrieval_tool.search] call; [sc_filters = None]
    means that no [filters] argument was passed. *)
Record SearchCall : Type := mkSearchCall {
  sc_query : string;
  sc_filters : option (gmap string string);
  sc_top_k : Z
}.

(** The arguments of one [client.chat.completions.create] call. *)
Record CompletionCall : Type := mkCompletionCall {
  cc_model : string;
  cc_system : string;
  cc_user : string;
  cc_max_tokens : Z;
  cc_temperature : float
}.

(** The dict returned by [validate_agent_response]. *)
Record ValidationResult : Type := mkValidation {
  is_valid : bool;
  issues : list string
}.

(** ** Effects: trace and exceptions *)

Inductive LogLevel : Type := INFO | WARNING | ERROR.

(** The log lines of [process_request], by the statement that writes them
    and the values it formats. *)
Inductive LogLine : Type :=
| LogProcessing (query_prefix : string) (qt : QueryType)
| LogUserContextMode
| LogValidationIssues (issues : list string)
| LogProcessed (confidence : float) (chunks : nat)
| LogFailure (e : Exn).

Inductive Event : Type :=
| ESearch (c : SearchCall)
| ECompletion (c : CompletionCall)
| EValidate (r : AgentResponse.t)
| ELog (lvl : LogLevel) (line : LogLine).

(** A computation that appends to the trace and may raise. *)
Definition M (A : Type) : Type := list Event * result A.

Global Instance M_ret : MRet M := fun A a => ([], Ok a).

Global Instance M_bind : MBind M := fun A B f m =>
  match m with
  | (tr, Ok a) => let '(tr', r) := f a in (tr ++ tr', r)
  | (tr, Raise e) => (tr, Raise e)
  end.

Definition emit (e : Event) : M unit := ([e], Ok tt).
Definition lift {A} (r : result A) : M A := ([], r).
Definition log (lvl : LogLevel) (line : LogLine) : M unit := emit (ELog lvl line).

Definition trace {A} (m : M A) : list Event := fst m.
Definition outcome {A} (m : M A) : result A := snd m.

(** [try: m except Exception as e: logger.error(...); raise] *)
Definition log_and_reraise {A} (m : M A) : M A :=
  match m with
  | (tr, Ok a) => (tr, Ok a)
  | (tr, Raise e) => (tr ++ [ELog ERROR (LogFailure e)], Raise e)
  end.

Global Instance result_ret : MRet result := fun A a => Ok a.
Global Instance result_bind : MBind result := fun A B f r =>
  match r with
  | Ok a => f a
  | Raise e => Raise e
  end.

(** [item[key]]: [KeyError] when the key is absent. *)
Definition getitem {A} (key : string) (field : option A) : result A :=
  match field with
  | Some a => Ok a
  | None => Raise (KeyError key)
  end.

(** The collaborators and settings [process_request] uses.  The retrieval
    tool ([tools/retrieval_tool.py]) and the response validator
    ([utils/validation_utils.py]) are not part of the sources at hand and
    the completion client and the clock are external, so each is a
    parameter: a function of the arguments it is called with.  The
    validator returns its verdict and does not raise (spec, section 4.3). *)
Record Env : Type := mkEnv {
  (** [self.retrieval_tool.search] *)
  search : SearchCall -> result (list RawItem.t);
  (** [datetime.fromisoformat] *)
  fromisoformat : string -> result Z;
  (** [self.client.chat.completions.create(...)] followed by
      [response.choices[0].message.content] *)
  completion : CompletionCall -> result string;
  (** [ResponseValidator().validate_agent_response] *)
  validate_agent_response : AgentResponse.t -> ValidationResult;
  (** [int(datetime.now().timestamp())] *)
  now : Z;
  OPENROUTER_MODEL : string;
  AGENT_INSTRUCTIONS : string;
  MAX_RESPONSE_TOKENS : Z
}.

(** ** The request pipeline ([RAGAgentService.process_request]) *)

Module Service.
Import AgentRequest.

Definition nl : string := String (Ascii.ascii_of_nat 10) EmptyString.

(** The sixteen blanks that indent the lines of the prompt literals. *)
Definition indent : string := "                ".

(** [bool(d)] for an optional dict: [None] and [{}] are falsy. *)
Definition truthy_filters (o : option (gmap string string)) : bool :=
  match o with
  | None => false
  | Some m => negb (bool_decide (m = ∅))
  end.

(** [a or b] on an optional dict. *)
Definition or_filters (a : option (gmap string string))
    (b : gmap string string) : gmap string string :=
  match a with
  | Some m => if bool_decide (m = ∅) then b else m
  | None => b
  end.

(** [d.update(other)]: every key of [other] is written into [d]. *)
Definition dict_update (d other : gmap string string) : gmap string string :=
  other ∪ d.

(** The string held by an [Optional[str]] that was tested truthy. *)
Definition held (o : option string) : string := default "" o.

Definition call_search (env : Env) (c : SearchCall) : M (list RawItem.t) :=
  _ ← emit (ESearch c); lift (search env c).

Definition call_completion (env : Env) (c : CompletionCall) : M string :=
  _ ← emit (ECompletion c); lift (completion env c).

(** The filters of the chapter branch (lines 140-142). *)
Definition chapter_filters (request : AgentRequest.t) : gmap string string :=
  let filters := {[ "chapter" := held (chapter_filter request) ]} in
  match AgentRequest.filters request with
  | Some f => if truthy_filters (Some f) then dict_update filters f else filters
  | None => filters
  end.

(** Lines 129-158: the branch on [query_type]. *)
Definition retrieve (env : Env) (request : AgentRequest.t) : M (list RawItem.t) :=
  if bool_decide (query_type request = GENERAL) then
    let filters := or_filters (AgentRequest.filters request) ∅ in
    call_search env (mkSearchCall (query request) (Some filters) (top_k request))
  else if bool_decide (query_type request = CHAPTER_SPECIFIC)
          && Py.truthy_str (chapter_filter request) then
    call_search env
      (mkSearchCall (query request) (Some (chapter_filters request)) (top_k request))
  else if bool_decide (query_type request = USER_CONTEXT) then
    _ ← log INFO LogUserContextMode; mret []
  else
    call_search env (mkSearchCall (query request) None (top_k request)).

(** Lines 162-172: one [RetrievedChunk(...)], keyword arguments evaluated
    in order. *)
Definition to_chunk (env : Env) (item : RawItem.t) : result RetrievedChunk.t :=
  id ← getitem "id" (RawItem.id item);
  content ← getitem "content" (RawItem.content item);
  source_url ← getitem "source_url" (RawItem.source_url item);
  similarity_score ← getitem "similarity_score" (RawItem.similarity_score item);
  confidence_score ← getitem "confidence_score" (RawItem.confidence_score item);
  raw_ts ← getitem "retrieval_timestamp" (RawItem.retrieval_timestamp item);
  ts ← match raw_ts with
       | TsText s => fromisoformat env s
       | TsDatetime t => Ok t
       end;
  mret (RetrievedChunk.mk id content source_url
          (RawItem.chapter item) (RawItem.section item)
          similarity_score confidence_score ts
          (default ∅ (RawItem.metadata item))).

(** Lines 161-174: the loop over [retrieved_data], threading the list
    [retrieved_chunks] and the set [source_attribution]. *)
Fixpoint convert_items (env : Env) (retrieved_data : list RawItem.t)
    (retrieved_chunks : list RetrievedChunk.t) (source_attribution : gset string)
    : result (list RetrievedChunk.t * gset string) :=
  match retrieved_data with
  | [] => Ok (retrieved_chunks, source_attribution)
  | item :: rest =>
      chunk ← to_chunk env item;
      url ← getitem "source_url" (RawItem.source_url item);
      convert_items env rest (retrieved_chunks ++ [chunk])
        (source_attribution ∪ {[ url ]})
  end.

(** [f"Source: {chunk.source_url}\nContent: {chunk.content}"] *)
Definition chunk_text (chunk : RetrievedChunk.t) : string :=
  "Source: " +:+ RetrievedChunk.source_url chunk +:+ nl +:+
  "Content: " +:+ RetrievedChunk.content chunk.

(** Lines 177-182. *)
Definition build_context (request : AgentRequest.t)
    (retrieved_chunks : list RetrievedChunk.t) : string :=
  match retrieved_chunks with
  | _ :: _ => Py.join (nl +:+ nl) (map chunk_text retrieved_chunks)
  | [] =>
      if bool_decide (query_type request = USER_CONTEXT)
         && Py.truthy_str (user_context request)
      then "User Context: " +:+ held (user_context request)
      else ""
  end.

Definition line (s : string) : string := indent +:+ s +:+ nl.

(** Lines 186-200. *)
Definition grounded_prompt (context_text query : string) : string :=
  nl +:+
  line "You are an AI assistant for the AI Robotics textbook. Answer the user's question based on the provided context." +:+
  nl +:+
  line "Context:" +:+
  line context_text +:+
  nl +:+
  line ("Question: " +:+ query) +:+
  nl +:+
  line "Instructions:" +:+
  line "- Answer based on the context provided" +:+
  line "- If the context doesn't contain the answer, say so" +:+
  line "- Provide source attribution when possible" +:+
  line "- Be concise and accurate" +:+
  line "- Never hallucinate information not in the context" +:+
  indent.

(** Lines 203-207. *)
Definition ungrounded_prompt (query : string) : string :=
  nl +:+
  line "You are an AI assistant for the AI Robotics textbook." +:+
  line ("The system couldn't find relevant context for the question: " +:+ query) +:+
  line "Provide a general response based on your knowledge while noting that specific textbook content wasn't available." +:+
  indent.

(** Lines 185-207: [if context_text: ... else: ...]. *)
Definition build_prompt (context_text query : string) : string :=
  if String.eqb context_text "" then ungrounded_prompt query
  else grounded_prompt context_text query.

(** [sum(xs)] on floats: the items are added one by one, left to right,
    to a total that starts at 0, each addition rounding to binary64.
    (CPython from 3.12 on also keeps a correction term for the bits an
    addition loses, see [py_sum_compensated].) *)
Definition py_sum (xs : list float) : float := fold_left PrimFloat.add xs 0%float.

(** [sum(xs)] as CPython 3.12 and later compute it for floats: the same
    running total together with Neumaier's correction term, which is added
    at the end when it is non-zero and finite. *)
Definition py_sum_compensated (xs : list float) : float :=
  let step (acc : float * float) (x : float) :=
    let '(total, c) := acc in
    let t := (total + x)%float in
    if (PrimFloat.abs x <=? PrimFloat.abs total)%float
    then (t, (c + ((total - t) + x))%float)
    else (t, (c + ((x - t) + total))%float) in
  let '(total, c) := fold_left step xs (0%float, 0%float) in
  if negb (PrimFloat.is_zero c) && PrimFloat.is_finite c
  then (total + c)%float else total.

(** [min(a, b)]: [b] when [b < a], otherwise [a]. *)
Definition py_min (a b : float) : float :=
  if (b <? a)%float then b else a.

(** The float a division takes for the integer [len(...)]: the nearest
    binary64 number, which is the integer itself up to 2^53. *)
Definition float_of_len (n : nat) : float :=
  PrimFloat.of_uint63 (Uint63.of_Z (Z.of_nat n)).

(** Lines 224-229. *)
Definition compute_confidence (retrieved_chunks : list RetrievedChunk.t) : float :=
  match retrieved_chunks with
  | _ :: _ =>
      let avg_similarity :=
        (py_sum (map RetrievedChunk.similarity_score retrieved_chunks)
         / float_of_len (length retrieved_chunks))%float in
      py_min 1%float avg_similarity
  | [] => 0.3%float
  end.

(** Line 123. *)
Definition resolve_conversation_id (env : Env) (request : AgentRequest.t) : string :=
  Py.or_str (conversation_id request) ("conv_" +:+ Py.str_int (now env)).

(** Lines 232-242. *)
Definition assemble (request : AgentRequest.t) (conversation_id ai_response : string)
    (retrieved_chunks : list RetrievedChunk.t) (source_attribution : gset string)
    (confidence_score : float) : AgentResponse.t :=
  AgentResponse.mk ai_response (query request) retrieved_chunks
    (elements source_attribution) confidence_score (query_type request)
    conversation_id
    (Nat.ltb 0 (length retrieved_chunks)
     || bool_decide (query_type request = USER_CONTEXT))
    true.

(** Lines 210-218: the arguments of the completion call. *)
Definition completion_request (env : Env) (prompt : string) : CompletionCall :=
  mkCompletionCall (OPENROUTER_MODEL env) (AGENT_INSTRUCTIONS env) prompt
    (MAX_RESPONSE_TOKENS env) 0.3%float.

(** Lines 120-252: the body of the [try]. *)
Definition process_request_body (env : Env) (request : AgentRequest.t)
    : M AgentResponse.t :=
  _ ← log INFO (LogProcessing (String.substring 0 50 (query request))
                  (query_type request));
  let conversation_id := resolve_conversation_id env request in
  retrieved_data ← retrieve env request;
  converted ← lift (convert_items env retrieved_data [] ∅);
  let retrieved_chunks := converted.1 in
  let source_attribution := converted.2 in
  let context_text := build_context request retrieved_chunks in
  let prompt := build_prompt context_text (query request) in
  ai_response ← call_completion env (completion_request env prompt);
  let confidence_score := compute_confidence retrieved_chunks in
  let agent_response :=
    assemble request conversation_id ai_response retrieved_chunks
      source_attribution confidence_score in
  _ ← emit (EValidate agent_response);
  let validation_result := validate_agent_response env agent_response in
  _ ← (if negb (is_valid validation_result)
       then log WARNING (LogValidationIssues (issues validation_result))
       else mret tt);
  _ ← log INFO (LogProcessed confidence_score (length retrieved_chunks));
  mret agent_response.

(** [process_request] (lines 115-256). *)
Definition process_request (env : Env) (request : AgentRequest.t)
    : M AgentResponse.t :=
  log_and_reraise (process_request_body env request).

(** *** Observations on a run *)

(** The retrieval calls of a trace, in order. *)
Fixpoint search_calls (tr : list Event) : list SearchCall :=
  match tr with
  | [] => []
  | ESearch c :: rest => c :: search_calls rest
  | _ :: rest => search_calls rest
  end.

(** The completion calls of a trace, in order. *)
Fixpoint completion_calls (tr : list Event) : list CompletionCall :=
  match tr with
  | [] => []
  | ECompletion c :: rest => c :: completion_calls rest
  | _ :: rest => completion_calls rest
  end.

(** The responses handed to the validator, in order. *)
Fixpoint validated (tr : list Event) : list AgentResponse.t :=
  match tr with
  | [] => []
  | EValidate r :: rest => r :: validated rest
  | _ :: rest => validated rest
  end.

(** The calls a run makes to its collaborators, by kind. *)
Inductive CallKind : Type := Retrieval | Completion | Validation.

Definition call_kind (e : Event) : option CallKind :=
  match e with
  | ESearch _ => Some Retrieval
  | ECompletion _ => Some Completion
  | EValidate _ => Some Validation
  | ELog _ _ => None
  end.

(** The kinds of the calls of a trace, in the order they were made. *)
Definition call_kinds (tr : list Event) : list CallKind := omap call_kind tr.

(** The lines a trace logs at level [ERROR], in order. *)
Definition error_lines (tr : list Event) : list LogLine :=
  omap (fun e => match e with
                 | ELog ERROR line => Some line
                 | _ => None
                 end) tr.




(** The same request with another [filters] field. *)
Definition with_filters (request : AgentRequest.t)
    (fs : option (gmap string string)) : AgentRequest.t :=
  AgentRequest.mk (query request) (query_type request) (chapter_filter request)
    fs (top_k request) (user_context request) (conversation_id request).

End Service.

(** ** The specification's formulations *)

Module Spec.

(** Last-write-wins application of a list of entries to a mapping. *)
Definition apply_entries (base : gmap string string)
    (entries : list (string * string)) : gmap string string :=
  foldl (fun m kv => <[ kv.1 := kv.2 ]> m) base entries.

(** The spec's effective filters of a chapter request: start from
    [{"chapter": chapter_filter}], then apply [request.filters]. *)
Definition merged_filters (chapter_filter : string)
    (filters : option (gmap string string)) : gmap string string :=
  apply_entries {[ "chapter" := chapter_filter ]}
    (map_to_list (default ∅ filters)).

(** The calls of a run that goes through, in pipeline order: retrieval
    (skipped for [USER_CONTEXT]), then the completion, then validation. *)
Definition planned_calls (qt : QueryType) : list Service.CallKind :=
  match qt with
  | USER_CONTEXT => [Service.Completion; Service.Validation]
  | _ => [Service.Retrieval; Service.Completion; Service.Validation]
  end.




(** The distinct values of a list, each once. *)
Definition distinct (l : list string) : list string := remove_dups l.


End Spec.

(** ** Signs of binary64 values *)

Module Binary64.



End Binary64.


(** ** Concrete collaborators and requests *)

Module Demo.

Definition item (url : string) (score : float) : RawItem.t :=
  RawItem.mk (Some "c1") (Some "Robots sense, plan and act.") (Some url)
    (Some "1") None (Some score) (Some 0.9%float)
    (Some (TsDatetime 1700000000)) None.

(** Three records, two of them from the same page. *)
Definition items : list RawItem.t :=
  [ item "https://book/ch1" 0.5%float;
    item "https://book/ch2" 0.75%float;
    item "https://book/ch1" 0.25%float ].

Definition verdict_ok : ValidationResult := mkValidation true [].

Definition env_with (found : list RawItem.t) (v : ValidationResult) : Env :=
  mkEnv (fun _ => Ok found)
        (fun _ => Raise (ValueError "Invalid isoformat string"))
        (fun _ => Ok "An answer.")
        (fun _ => v)
        1700000123
        "mistralai/mistral-7b-instruct"
        "You are an AI assistant."
        1000.

Definition env : Env := env_with items verdict_ok.
Definition env_empty : Env := env_with [] verdict_ok.

Definition request (qt : QueryType) (chapter : option string)
    (fs : option (gmap string string)) (uc conv : option string) : AgentRequest.t :=
  AgentRequest.mk "What is this book about?" qt chapter fs 5 uc conv.

Definition general : AgentRequest.t := request GENERAL None None None None.

(** A chapter request whose own filters also carry a ["chapter"] key. *)
Definition chapter_three : AgentRequest.t :=
  request CHAPTER_SPECIFIC (Some "3")
    (Some {[ "chapter" := "4"; "lang" := "en" ]}) None (Some "session-7").

(** A chapter request whose [chapter_filter] is the empty string. *)
Definition chapter_blank : AgentRequest.t :=
  request CHAPTER_SPECIFIC (Some "") (Some {[ "lang" := "en" ]}) None None.

Definition notes : AgentRequest.t :=
  request USER_CONTEXT None None (Some "chapter 1 notes") (Some "session-7").

(** A user-context request whose [user_context] is the empty string. *)
Definition notes_blank : AgentRequest.t :=
  request USER_CONTEXT None None (Some "") None.

(** A request whose [conversation_id] is the empty string. *)
Definition blank_conversation : AgentRequest.t :=
  request GENERAL None None None (Some "").

Definition cfg_complete : Config.t :=
  Config.mk (Some "sk-or") (Some "https://qdrant.example") (Some "qk") (Some "ck").

(** The LLM key and the vector-store URL are both unset. *)
Definition cfg_two_unset : Config.t :=
  Config.mk None None (Some "qk") (Some "ck").

(** Every variable is set, the vector-store URL to the empty string. *)
Definition cfg_empty_url : Config.t :=
  Config.mk (Some "sk-or") (Some "") (Some "qk") (Some "ck").

Definition sessions : gmap string ConversationSession :=
  {[ "s1" := mkSession "s1" 1700000000; "s2" := mkSession "s2" 1700000050 ]}.

End Demo.

(** ** Session operations besides [clear_conversation] *)

Module Sessions.

(** [create_conversation_session] (rag_agent_service.py, lines 89-96) with
    the session dict passed explicitly.  [uuid] is the text of the fresh
    [uuid.uuid4()] and [created] the creation time the session constructor
    records; the result is the returned session and the dict after the
    call. *)
Definition create_conversation_session
    (sessions : gmap string ConversationSession) (uuid : string) (created : Z)
    : ConversationSession * gmap string ConversationSession :=
  let session_id := uuid in
  let session := mkSession session_id created in
  (session, <[ session_id := session ]> sessions).

(** [get_conversation_session] (lines 98-105): [self.sessions.get(id)]. *)
Definition get_conversation_session
    (sessions : gmap string ConversationSession) (session_id : string)
    : option ConversationSession :=
  sessions !! session_id.

End Sessions.

(** ** Start-up: environment files, configuration and the constructor *)

Module Startup.

(** The three [.env] files both loaders look for, each as the mapping
    [load_dotenv] reads from it; [None] when [os.path.isfile] is false. *)
Record EnvFiles : Type := mkEnvFiles {
  project_root_env : option (gmap string string);
  pipeline_env : option (gmap string string);
  rag_agent_env : option (gmap string string)
}.

Inductive EnvFile : Type := ProjectRoot | Pipeline | RagAgent.

(** The list [env_files], in the order both loaders build it. *)
Definition env_files (files : EnvFiles)
    : list (EnvFile * option (gmap string string)) :=
  [ (ProjectRoot, project_root_env files);
    (Pipeline, pipeline_env files);
    (RagAgent, rag_agent_env files) ].

(** [load_dotenv(file, override=...)] on [os.environ]: every variable of
    the file is set, except, without [override], those the environment
    already has. *)
Definition load_dotenv (override : bool) (file environ : gmap string string)
    : gmap string string :=
  if override then file ∪ environ else environ ∪ file.

(** [for env_file in env_files: if os.path.isfile(env_file): load_dotenv(...)] *)
Definition load_all (override : bool)
    (env_files : list (EnvFile * option (gmap string string)))
    (environ : gmap string string) : gmap string string :=
  foldl (fun env entry =>
           match entry.2 with
           | Some file => load_dotenv override file env
           | None => env
           end)
        environ env_files.

(** [_load_environment_variables] (config.py, lines 9-26). *)
Definition load_environment_variables (files : EnvFiles)
    (environ : gmap string string) : gmap string string :=
  load_all false (env_files files) environ.

(** The four key attributes of the class body of [Config] (config.py,
    lines 35, 55, 56, 60): each is [os.getenv(NAME)]. *)
Definition class_attributes (environ : gmap string string) : Config.t :=
  Config.mk (environ !! "OPENROUTER_API_KEY") (environ !! "QDRANT_URL")
    (environ !! "QDRANT_API_KEY") (environ !! "COHERE_API_KEY").

(** Python's [int(text)] and [float(text)], the two built-ins the class
    body applies to environment text: each returns a number or raises. *)
Record Builtins : Type := mkBuiltins {
  py_int : string -> result Z;
  py_float : string -> result float
}.

(** [os.getenv(name, fallback)] *)
Definition getenv (environ : gmap string string) (name fallback : string)
    : string :=
  default fallback (environ !! name).

(** The class [Config] once its body has run: the four key attributes and
    the five numeric ones.  The remaining attributes are texts read with a
    default; reading them cannot fail and [validate] does not look at
    them. *)
Module Class.
Record t : Type := mk {
  keys : Config.t;
  RETRIEVAL_TIMEOUT : Z;
  FASTAPI_PORT : Z;
  MIN_CONFIDENCE_SCORE : float;
  MIN_SIMILARITY_SCORE : float;
  MAX_RESPONSE_TOKENS : Z
}.
End Class.

(** The class body of [Config] (config.py, lines 31-66).  The conversions
    of lines 47, 51, 64, 65 and 66 run in that order and the first one
    that raises ends the body, and with it the import. *)
Definition class_body (b : Builtins) (environ : gmap string string)
    : result Class.t :=
  RETRIEVAL_TIMEOUT ← py_int b (getenv environ "RETRIEVAL_TIMEOUT" "30");
  FASTAPI_PORT ← py_int b (getenv environ "FASTAPI_PORT" "8001");
  MIN_CONFIDENCE_SCORE ← py_float b (getenv environ "MIN_CONFIDENCE_SCORE" "0.3");
  MIN_SIMILARITY_SCORE ← py_float b (getenv environ "MIN_SIMILARITY_SCORE" "0.5");
  MAX_RESPONSE_TOKENS ← py_int b (getenv environ "MAX_RESPONSE_TOKENS" "1000");
  mret (Class.mk (class_attributes environ) RETRIEVAL_TIMEOUT FASTAPI_PORT
          MIN_CONFIDENCE_SCORE MIN_SIMILARITY_SCORE MAX_RESPONSE_TOKENS).

(** Importing [config.py]: the files are loaded (line 29), then the class
    body runs on the environment; the import raises when the body does. *)
Definition import_config (b : Builtins) (files : EnvFiles)
    (environ : gmap string string) : result Class.t :=
  class_body b (load_environment_variables files environ).

(** The numeric settings in class-body order: variable, default text and
    the built-in applied to the text. *)
Inductive Numeric : Type := AsInt | AsFloat.

Definition numeric_settings : list (string * string * Numeric) :=
  [ ("RETRIEVAL_TIMEOUT", "30", AsInt);
    ("FASTAPI_PORT", "8001", AsInt);
    ("MIN_CONFIDENCE_SCORE", "0.3", AsFloat);
    ("MIN_SIMILARITY_SCORE", "0.5", AsFloat);
    ("MAX_RESPONSE_TOKENS", "1000", AsInt) ].

(** The conversion of one numeric setting, its value dropped. *)
Definition convert (b : Builtins) (environ : gmap string string)
    (setting : string * string * Numeric) : result unit :=
  let text := getenv environ setting.1.1 setting.1.2 in
  match setting.2 with
  | AsInt => _ ← py_int b text; mret tt
  | AsFloat => _ ← py_float b text; mret tt
  end.

(** The first of a list of mappings that defines [name], if any. *)
Fixpoint first_defined (maps : list (gmap string string)) (name : string)
    : option string :=
  match maps with
  | [] => None
  | m :: rest =>
      match m !! name with
      | Some v => Some v
      | None => first_defined rest name
      end
  end.

(** A file that does not exist defines nothing. *)
Definition contents (file : option (gmap string string)) : gmap string string :=
  default ∅ file.

(** The keyword arguments of [OpenAI(...)]. *)
Record OpenAIArgs : Type := mkOpenAIArgs {
  api_key : string;
  base_url : string
}.

(** The constructors [__init__] calls: [Some e] when the call raises [e]. *)
Record Constructors : Type := mkConstructors {
  openai : OpenAIArgs -> option Exn;
  retrieval_tool : option Exn
}.

(** What [__init__] logs and which constructors it calls, in order. *)
Inductive InitEvent : Type :=
| LoadedFile (file : EnvFile)
| ConfigValidated
| ConfigInvalid (e : Exn)
| CallOpenAI (args : OpenAIArgs)
| ClientReady
| ClientFailed (e : Exn)
| CallRetrievalTool
| ToolReady
| ToolFailed (e : Exn)
| ServiceReady.

(** The attributes [__init__] leaves on the service. *)
Record ServiceState : Type := mkServiceState {
  config : Config.t;
  client : OpenAIArgs;
  sessions : gmap string ConversationSession
}.

(** [a or b] on two [Optional[str]]. *)
Definition or_opt (a b : option string) : option string :=
  if Py.truthy_str a then a else b.

Definition loaded_events (env_files : list (EnvFile * option (gmap string string)))
    : list InitEvent :=
  omap (fun entry => match entry.2 with
                     | Some _ => Some (LoadedFile entry.1)
                     | None => None
                     end) env_files.

(** Lines 61-74: the [try] that builds the client; the [ValueError] of
    line 65 is raised inside it and so takes the same handler as a failure
    of [OpenAI(...)]. *)
Definition make_client (ctors : Constructors) (cfg : Config.t)
    (environ : gmap string string) : list InitEvent * result OpenAIArgs :=
  let api_key := or_opt (environ !! "OPENROUTER_API_KEY")
                   (Config.OPENROUTER_API_KEY cfg) in
  if negb (Py.truthy_str api_key) then
    let e := ValueError "OPENROUTER_API_KEY is not set" in
    ([ClientFailed e], Raise e)
  else
    let args := mkOpenAIArgs (Service.held api_key) "https://openrouter.ai/api/v1" in
    match openai ctors args with
    | Some e => ([CallOpenAI args; ClientFailed e], Raise e)
    | None => ([CallOpenAI args; ClientReady], Ok args)
    end.

(** [RAGAgentService.__init__] (rag_agent_service.py, lines 22-87).  [cfg]
    holds the attributes of the [Config] class the constructor validates;
    the result is the events, the environment after the files were loaded
    with [override=True], and the service or the exception raised. *)
Definition init (files : EnvFiles) (ctors : Constructors) (cfg : Config.t)
    (environ : gmap string string)
    : list InitEvent * gmap string string * result ServiceState :=
  let environ' := load_all true (env_files files) environ in
  let loaded := loaded_events (env_files files) in
  match Config.validate cfg with
  | Raise e => (loaded ++ [ConfigInvalid e], environ', Raise e)
  | Ok _ =>
      let made := make_client ctors cfg environ' in
      match made.2 with
      | Raise e => (loaded ++ ConfigValidated :: made.1, environ', Raise e)
      | Ok client =>
          match retrieval_tool ctors with
          | Some e =>
              (loaded ++ ConfigValidated :: made.1 ++ [CallRetrievalTool; ToolFailed e],
               environ', Raise e)
          | None =>
              (loaded ++ ConfigValidated :: made.1
                 ++ [CallRetrievalTool; ToolReady; ServiceReady],
               environ', Ok (mkServiceState cfg client ∅))
          end
      end
  end.

Definition init_events (r : list InitEvent * gmap string string * result ServiceState)
    : list InitEvent := r.1.1.
Definition init_environ (r : list InitEvent * gmap string string * result ServiceState)
    : gmap string string := r.1.2.
Definition init_outcome (r : list InitEvent * gmap string string * result ServiceState)
    : result ServiceState := r.2.

(** The [OpenAI(...)] calls among the events. *)
Fixpoint openai_calls (events : list InitEvent) : list OpenAIArgs :=
  match events with
  | [] => []
  | CallOpenAI args :: rest => args :: openai_calls rest
  | _ :: rest => openai_calls rest
  end.

(** The number of [RetrievalTool()] calls among the events. *)
Fixpoint retrieval_tool_calls (events : list InitEvent) : nat :=
  match events with
  | [] => 0
  | CallRetrievalTool :: rest => S (retrieval_tool_calls rest)
  | _ :: rest => retrieval_tool_calls rest
  end.

End Startup.

(** ** The Qdrant connection check ([test_connection.py]) *)

Module ConnectionTest.

(** What the Qdrant client does for the script: [get_collections] gives
    the collection names or raises (a failure of the client constructor
    counts here too), [get_collection] raises or not. *)
Record Qdrant : Type := mkQdrant {
  get_collections : result (list string);
  get_collection : string -> option Exn
}.

(** [test_qdrant_connection] (test_connection.py, lines 12-57), without
    its printing: the returned flag. *)
Definition test_qdrant_connection (environ : gmap string string)
    (qdrant : Qdrant) : bool :=
  if negb (Py.truthy_str (environ !! "QDRANT_URL"))
     || negb (Py.truthy_str (environ !! "QDRANT_API_KEY")) then false
  else
    match get_collections qdrant with
    | Raise _ => false
    | Ok names =>
        let collection_name :=
          default "book_content" (environ !! "QDRANT_COLLECTION_NAME") in
        let collection_exists :=
          existsb (fun name => String.eqb name collection_name) names in
        if collection_exists then
          match get_collection qdrant collection_name with
          | Some _ => false
          | None => true
          end
        else true
    end.

End ConnectionTest.

(** ** Texts *)

Module Text.

(** [s] occurs in [t] as a contiguous piece (Python's [s in t]). *)
Definition occurs_in (s t : string) : Prop :=
  exists before after, t = before +:+ s +:+ after.

End Text.

(** ** More concrete inputs *)

Module Samples.

Definition root_file : gmap string string :=
  {[ "QDRANT_URL" := "https://root.example"; "COHERE_API_KEY" := "ck-root" ]}.

Definition agent_file : gmap string string :=
  {[ "QDRANT_URL" := "https://agent.example"; "QDRANT_API_KEY" := "qk-agent";
     "OPENROUTER_API_KEY" := "sk-agent" ]}.

Definition files : Startup.EnvFiles :=
  Startup.mkEnvFiles (Some root_file) None (Some agent_file).

Definition environ : gmap string string :=
  {[ "OPENROUTER_API_KEY" := "sk-env" ]}.

Definition ctors : Startup.Constructors :=
  Startup.mkConstructors (fun _ => None) None.

(** Stand-ins for [int] and [float]: [int] on plain decimal numerals, where
    it agrees with Python's, refusing every other text with Python's
    message; [float] on the two default texts. *)
Definition builtins : Startup.Builtins :=
  Startup.mkBuiltins
    (fun text =>
       match NilZero.int_of_string text with
       | Some n => Ok (Z.of_int n)
       | None =>
           Raise (ValueError ("invalid literal for int() with base 10: "
                              +:+ Py.repr_str text))
       end)
    (fun text =>
       if String.eqb text "0.3" then Ok 0.3%float
       else if String.eqb text "0.5" then Ok 0.5%float
       else Raise (ValueError ("could not convert string to float: "
                               +:+ Py.repr_str text))).

(** The environment of [environ] with a timeout that is no number. *)
Definition environ_bad_timeout : gmap string string :=
  <[ "RETRIEVAL_TIMEOUT" := "abc" ]> environ.

(** A record that lacks ["content"] and ["confidence_score"]. *)
Definition broken_item : RawItem.t :=
  RawItem.mk (Some "c9") None (Some "https://book/ch9") None None
    (Some 0.5%float) None (Some (TsDatetime 1700000000)) None.

Definition failing_search : Env :=
  mkEnv (fun _ => Raise (CollaboratorError "connection refused"))
        (fun _ => Raise (ValueError "Invalid isoformat string"))
        (fun _ => Ok "An answer.")
        (fun _ => Demo.verdict_ok)
        1700000123 "mistralai/mistral-7b-instruct" "You are an AI assistant."
        1000.

Definition filtered : AgentRequest.t :=
  Demo.request GENERAL (Some "3") (Some {[ "lang" := "en" ]}) None None.

Definition failing_completion : Env :=
  mkEnv (fun _ => Ok Demo.items)
        (fun _ => Raise (ValueError "Invalid isoformat string"))
        (fun _ => Raise (CollaboratorError "rate limited"))
        (fun _ => Demo.verdict_ok)
        1700000123 "mistralai/mistral-7b-instruct" "You are an AI assistant."
        1000.

(** Retrieval gives one good record followed by a broken one. *)
Definition env_broken : Env :=
  Demo.env_with [Demo.item "https://book/ch1" 0.5%float; broken_item]
    Demo.verdict_ok.

(** Retrieval gives similarity scores above 1. *)
Definition env_high : Env :=
  Demo.env_with [Demo.item "https://book/ch1" 1.5%float;
                 Demo.item "https://book/ch2" 1.25%float]
    Demo.verdict_ok.

Definition chunk (confidence : float) : RetrievedChunk.t :=
  RetrievedChunk.mk "c1" "Robots sense, plan and act." "https://book/ch1"
    None None 0.5%float confidence 1700000000 ∅.


Definition cfg_no_cohere : Config.t :=
  Config.mk (Some "sk-or") (Some "https://qdrant.example") (Some "qk") None.

Definition qdrant_without_collection : ConnectionTest.Qdrant :=
  ConnectionTest.mkQdrant (Ok ["other"])
    (fun _ => Some (CollaboratorError "not found")).

Definition qdrant_environ : gmap string string :=
  {[ "QDRANT_URL" := "https://qdrant.example"; "QDRANT_API_KEY" := "qk" ]}.

End Samples.

(** * Properties *)

(** ** Session store *)

(** C8: clearing an id that is absent from the session map returns false
    and leaves the map as it was; clearing an id that is present returns
    true and removes exactly that entry (the map afterwards is the map with
    that key deleted: the key is gone, every other key is untouched). *)
Theorem clear_conversation_spec
    (sessions : gmap string ConversationSession) (id : string) :
  (sessions !! id = None ->
     clear_conversation sessions id = (false, sessions))
  /\ (is_Some (sessions !! id) ->
        (clear_conversation sessions id).1 = true
        /\ (clear_conversation sessions id).2 = delete id sessions
        /\ (clear_conversation sessions id).2 !! id = None
        /\ forall other, other <> id ->
             (clear_conversation sessions id).2 !! other = sessions !! other).
Proof.
  unfold clear_conversation. split.
  - intros ->. reflexivity.
  - intros [s Hs]. rewrite Hs. cbn [fst snd]. repeat split.
    + apply lookup_delete_eq.
    + intros other Hne. by rewrite lookup_delete_ne.
Qed.

Lemma clear_conversation_spec_witness :
  clear_conversation Demo.sessions "nobody" = (false, Demo.sessions)
  /\ (clear_conversation Demo.sessions "s1").1 = true
  /\ (clear_conversation Demo.sessions "s1").2 !! "s1" = None
  /\ (clear_conversation Demo.sessions "s1").2 !! "s2" = Demo.sessions !! "s2".
Proof.
  destruct (clear_conversation_spec Demo.sessions "nobody") as [Habsent _].
  destruct (clear_conversation_spec Demo.sessions "s1") as [_ Hpresent].
  split; [apply Habsent; vm_compute; reflexivity |].
  destruct Hpresent as (Hflag & _ & Hgone & Hothers);
    [eexists; vm_compute; reflexivity |].
  split; [exact Hflag | split; [exact Hgone |]].
  apply Hothers. discriminate.
Defined.

(** ** Configuration *)

Module ConfigFacts.
Import Config.

Lemma is_missing_fields o u k c :
  let cls := Config.mk o u k c in
  is_missing cls "OPENROUTER_API_KEY" = negb (Py.truthy_str o)
  /\ is_missing cls "QDRANT_URL" = negb (Py.truthy_str u)
  /\ is_missing cls "QDRANT_API_KEY" = negb (Py.truthy_str k)
  /\ is_missing cls "COHERE_API_KEY" = negb (Py.truthy_str c).
Proof. repeat split. Qed.

Lemma validate_by_flags o u k c :
  validate (Config.mk o u k c) =
  if negb (Py.truthy_str o) then Raise (ValueError llm_message)
  else if negb (Py.truthy_str c) then Raise (ValueError cohere_message)
  else match negb (Py.truthy_str u), negb (Py.truthy_str k) with
       | false, false => Ok tt
       | mu, mq =>
           Raise (ValueError (missing_message
             ((if mu then ["QDRANT_URL"] else []) ++
              (if mq then ["QDRANT_API_KEY"] else []))))
       end.
Proof.
  unfold validate, missing_vars.
  cbn [getattr required_vars List.filter String.eqb Ascii.eqb Bool.eqb
       OPENROUTER_API_KEY QDRANT_URL QDRANT_API_KEY COHERE_API_KEY].
  destruct (Py.truthy_str o), (Py.truthy_str u), (Py.truthy_str k), (Py.truthy_str c);
    reflexivity.
Qed.

Ltac by_flags cls :=
  destruct cls as [o u k c];
  pose proof (is_missing_fields o u k c) as (Ho & Hu & Hk & Hc);
  cbv zeta in Ho, Hu, Hk, Hc;
  rewrite validate_by_flags;
  destruct (Py.truthy_str o), (Py.truthy_str u), (Py.truthy_str k), (Py.truthy_str c);
  cbn [negb app] in *.

(** C7 (amended): [Config.validate] returns normally exactly when none of
    the four mandatory values is missing, and raises a [ValueError] exactly
    when one is missing, where missing means unset or empty.  The message
    names a missing variable, but only that of the first failing check: the
    LLM key when it is missing; otherwise the embedding key when it is
    missing; otherwise the list of the missing vector-store variables. *)
Theorem validate_raises_iff_missing (cls : Config.t) :
  (validate cls = Ok tt <->
     forall name, In name mandatory -> is_missing cls name = false)
  /\ ((exists msg, validate cls = Raise (ValueError msg)) <->
        exists name, In name mandatory /\ is_missing cls name = true)
  /\ (forall msg, validate cls = Raise (ValueError msg) ->
        exists name, In name mandatory /\ is_missing cls name = true
                     /\ Py.contains name msg = true)
  /\ (is_missing cls "OPENROUTER_API_KEY" = true ->
        validate cls = Raise (ValueError llm_message))
  /\ (is_missing cls "OPENROUTER_API_KEY" = false ->
      is_missing cls "COHERE_API_KEY" = true ->
        validate cls = Raise (ValueError cohere_message))
  /\ (is_missing cls "OPENROUTER_API_KEY" = false ->
      is_missing cls "COHERE_API_KEY" = false ->
      forall msg, validate cls = Raise (ValueError msg) ->
        msg = missing_message
                (List.filter (is_missing cls) ["QDRANT_URL"; "QDRANT_API_KEY"])).
Proof.
  split; [| split; [| split; [| split; [| split]]]].
  - by_flags cls; split;
      try discriminate; try reflexivity;
      try (intros _ name Hin; cbn [mandatory In] in Hin;
           destruct Hin as [<-|[<-|[<-|[<-|[]]]]]; assumption);
      intros Hall;
      pose proof (Hall "OPENROUTER_API_KEY" ltac:(cbn; tauto));
      pose proof (Hall "QDRANT_URL" ltac:(cbn; tauto));
      pose proof (Hall "QDRANT_API_KEY" ltac:(cbn; tauto));
      pose proof (Hall "COHERE_API_KEY" ltac:(cbn; tauto));
      congruence.
  - by_flags cls; split;
      try (intros _; first
             [ exists "OPENROUTER_API_KEY"; split; [cbn; tauto | assumption]
             | exists "QDRANT_URL"; split; [cbn; tauto | assumption]
             | exists "QDRANT_API_KEY"; split; [cbn; tauto | assumption]
             | exists "COHERE_API_KEY"; split; [cbn; tauto | assumption] ]);
      try (intros _; eexists; reflexivity);
      try (intros [msg Hmsg]; discriminate);
      intros (name & Hin & Hmiss); cbn [mandatory In] in Hin;
      destruct Hin as [<-|[<-|[<-|[<-|[]]]]]; congruence.
  - by_flags cls; intros msg Hmsg; try discriminate;
      injection Hmsg as <-;
      first
        [ exists "OPENROUTER_API_KEY"; split; [cbn; tauto | split; [assumption | vm_compute; reflexivity]]
        | exists "COHERE_API_KEY"; split; [cbn; tauto | split; [assumption | vm_compute; reflexivity]]
        | exists "QDRANT_URL"; split; [cbn; tauto | split; [assumption | vm_compute; reflexivity]]
        | exists "QDRANT_API_KEY"; split; [cbn; tauto | split; [assumption | vm_compute; reflexivity]] ].
  - by_flags cls; intros; congruence.
  - by_flags cls; intros; congruence.
  - by_flags cls; intros ? ? msg Hmsg; try congruence;
      injection Hmsg as <-; cbn [List.filter]; rewrite Hu, Hk; reflexivity.
Qed.

Lemma validate_raises_iff_missing_witness :
  validate Demo.cfg_complete = Ok tt
  /\ validate Demo.cfg_two_unset = Raise (ValueError llm_message).
Proof.
  split.
  - apply (proj1 (validate_raises_iff_missing Demo.cfg_complete)).
    intros name Hin. cbn [mandatory In] in Hin.
    destruct Hin as [<-|[<-|[<-|[<-|[]]]]]; reflexivity.
  - apply (proj1 (proj2 (proj2 (proj2
             (validate_raises_iff_missing Demo.cfg_two_unset))))).
    reflexivity.
Defined.

(** C7 as stated fails twice.  With the LLM key and the vector-store URL
    both unset, the error message is the one about the LLM key and does
    not name [QDRANT_URL]; and with all four variables set, one of them to
    the empty string, [validate] still raises. *)
Lemma validate_message_omits_unset_variable :
  is_unset Demo.cfg_two_unset "QDRANT_URL" = true
  /\ validate Demo.cfg_two_unset = Raise (ValueError llm_message)
  /\ Py.contains "QDRANT_URL" llm_message = false
  /\ forallb (fun name => negb (is_unset Demo.cfg_empty_url name)) mandatory = true
  /\ validate Demo.cfg_empty_url
     = Raise (ValueError "Missing required environment variables: ['QDRANT_URL']").
Proof. repeat split. Qed.

End ConfigFacts.

(** ** The request pipeline *)

Module PipelineFacts.
Import Service.

(** *** Trace and outcome of the combinators *)

Section Monad.
Context {A B : Type}.
Implicit Types (m : M A) (f : A -> M B).

Lemma outcome_bind m f :
  outcome (m ≫= f) =
  match outcome m with Ok a => outcome (f a) | Raise e => Raise e end.
Proof.
  destruct m as [tr [a|e]]; cbn; [destruct (f a) |]; reflexivity.
Qed.

Lemma trace_bind m f :
  trace (m ≫= f) =
  trace m ++ match outcome m with Ok a => trace (f a) | Raise _ => [] end.
Proof.
  destruct m as [tr [a|e]]; cbn; [destruct (f a); reflexivity |].
  by rewrite app_nil_r.
Qed.

Lemma outcome_log_and_reraise m :
  outcome (log_and_reraise m) = outcome m.
Proof. destruct m as [tr [a|e]]; reflexivity. Qed.

Lemma trace_log_and_reraise m :
  trace (log_and_reraise m) =
  trace m ++ match outcome m with
             | Ok _ => []
             | Raise e => [ELog ERROR (LogFailure e)]
             end.
Proof. destruct m as [tr [a|e]]; cbn; [by rewrite app_nil_r | reflexivity]. Qed.
End Monad.

Lemma search_calls_app tr1 tr2 :
  search_calls (tr1 ++ tr2) = search_calls tr1 ++ search_calls tr2.
Proof.
  induction tr1 as [|[c|c|r|lvl line] tr1 IH]; cbn; [done | by rewrite IH | done..].
Qed.

Lemma completion_calls_app tr1 tr2 :
  completion_calls (tr1 ++ tr2) = completion_calls tr1 ++ completion_calls tr2.
Proof.
  induction tr1 as [|[c|c|r|lvl line] tr1 IH]; cbn; [done | done | by rewrite IH | done..].
Qed.

Lemma validated_app tr1 tr2 :
  validated (tr1 ++ tr2) = validated tr1 ++ validated tr2.
Proof.
  induction tr1 as [|[c|c|r|lvl line] tr1 IH]; cbn; [done | done | done | by rewrite IH | done].
Qed.

(** The response [process_request] builds once retrieval gave [cv] and the
    completion gave [ai]. *)
Lemma process_request_outcome env request :
  outcome (process_request env request) =
  (items ← outcome (retrieve env request);
   cv ← convert_items env items [] ∅;
   ai ← completion env
          (completion_request env
             (build_prompt (build_context request cv.1) (AgentRequest.query request)));
   mret (assemble request (resolve_conversation_id env request) ai cv.1 cv.2
           (compute_confidence cv.1))).
Proof.
  unfold process_request, process_request_body.
  rewrite outcome_log_and_reraise.
  rewrite outcome_bind. cbn [log emit outcome snd].
  rewrite outcome_bind.
  destruct (outcome (retrieve env request)) as [items|e]; [|reflexivity].
  cbn [mbind result_bind].
  rewrite outcome_bind. cbn [lift outcome snd].
  destruct (convert_items env items [] ∅) as [cv|e]; [|reflexivity].
  cbn [mbind result_bind].
  rewrite outcome_bind. unfold call_completion at 1.
  rewrite outcome_bind. cbn [emit outcome snd lift].
  destruct (completion env _) as [ai|e]; [|reflexivity].
  rewrite outcome_bind. cbn [emit outcome snd].
  rewrite outcome_bind.
  destruct (is_valid _); cbn; reflexivity.
Qed.

(** The whole trace of a run. *)
Lemma process_request_trace env request :
  trace (process_request env request) =
  ELog INFO (LogProcessing (String.substring 0 50 (AgentRequest.query request))
               (AgentRequest.query_type request))
  :: trace (retrieve env request) ++
  match outcome (retrieve env request) with
  | Raise e => [ELog ERROR (LogFailure e)]
  | Ok items =>
    match convert_items env items [] ∅ with
    | Raise e => [ELog ERROR (LogFailure e)]
    | Ok cv =>
      let call := completion_request env
                    (build_prompt (build_context request cv.1)
                       (AgentRequest.query request)) in
      ECompletion call ::
      match completion env call with
      | Raise e => [ELog ERROR (LogFailure e)]
      | Ok ai =>
        let resp := assemble request (resolve_conversation_id env request) ai
                      cv.1 cv.2 (compute_confidence cv.1) in
        EValidate resp ::
        (if is_valid (validate_agent_response env resp) then []
         else [ELog WARNING
                 (LogValidationIssues (issues (validate_agent_response env resp)))])
        ++ [ELog INFO (LogProcessed (compute_confidence cv.1) (length cv.1))]
      end
    end
  end.
Proof.
  unfold process_request, process_request_body.
  rewrite trace_log_and_reraise.
  rewrite outcome_bind, trace_bind. cbn [log emit outcome trace fst snd].
  rewrite outcome_bind, trace_bind.
  destruct (outcome (retrieve env request)) as [items|e];
    [|cbn; by rewrite !app_nil_r].
  rewrite outcome_bind, trace_bind. cbn [lift outcome trace fst snd].
  destruct (convert_items env items [] ∅) as [cv|e];
    [|cbn; by rewrite !app_nil_r].
  rewrite outcome_bind, trace_bind. unfold call_completion.
  rewrite outcome_bind, trace_bind. cbn [emit lift outcome trace fst snd].
  cbv zeta.
  destruct (completion env _) as [ai|e].
  2:{ cbn. by rewrite <- !app_assoc. }
  rewrite outcome_bind, trace_bind. cbn [emit lift outcome trace fst snd].
  rewrite outcome_bind, trace_bind.
  destruct (is_valid _); cbn; rewrite ?app_nil_r, <- ?app_assoc; reflexivity.
Qed.

(** *** The branch on the query type *)

Lemma retrieve_chapter env request :
  AgentRequest.query_type request = CHAPTER_SPECIFIC ->
  Py.truthy_str (AgentRequest.chapter_filter request) = true ->
  retrieve env request =
  call_search env (mkSearchCall (AgentRequest.query request)
                     (Some (chapter_filters request)) (AgentRequest.top_k request)).
Proof. intros Hqt Hc. unfold retrieve. rewrite Hqt, Hc. reflexivity. Qed.

Lemma retrieve_chapter_default env request :
  AgentRequest.query_type request = CHAPTER_SPECIFIC ->
  Py.truthy_str (AgentRequest.chapter_filter request) = false ->
  retrieve env request =
  call_search env (mkSearchCall (AgentRequest.query request) None
                     (AgentRequest.top_k request)).
Proof. intros Hqt Hc. unfold retrieve. rewrite Hqt, Hc. reflexivity. Qed.

Lemma retrieve_user_context env request :
  AgentRequest.query_type request = USER_CONTEXT ->
  retrieve env request = ([ELog INFO LogUserContextMode], Ok []).
Proof. intros Hqt. unfold retrieve. rewrite Hqt. reflexivity. Qed.

Lemma trace_call_search env c : trace (call_search env c) = [ESearch c].
Proof. unfold call_search. rewrite trace_bind. cbn. by destruct (search env c). Qed.

Lemma completion_calls_retrieve env request :
  completion_calls (trace (retrieve env request)) = [].
Proof.
  unfold retrieve.
  repeat case_match; rewrite ?trace_call_search; reflexivity.
Qed.

Lemma validated_retrieve env request :
  validated (trace (retrieve env request)) = [].
Proof.
  unfold retrieve.
  repeat case_match; rewrite ?trace_call_search; reflexivity.
Qed.

Lemma search_calls_process_request env request :
  search_calls (trace (process_request env request)) =
  search_calls (trace (retrieve env request)).
Proof.
  rewrite process_request_trace. cbn [search_calls].
  rewrite search_calls_app.
  repeat case_match; cbn; rewrite ?search_calls_app, ?app_nil_r; cbn;
    by rewrite ?app_nil_r.
Qed.

Lemma validated_process_request env request :
  validated (trace (process_request env request)) =
  match outcome (process_request env request) with
  | Ok resp => [resp]
  | Raise _ => []
  end.
Proof.
  rewrite process_request_trace, process_request_outcome. cbn [validated].
  rewrite validated_app, validated_retrieve.
  destruct (outcome (retrieve env request)) as [items|e]; [|reflexivity].
  cbn [mbind result_bind].
  destruct (convert_items env items [] ∅) as [cv|e]; [|reflexivity].
  cbn [mbind result_bind]. cbv zeta.
  destruct (completion env _) as [ai|e]; [|reflexivity].
  cbn [mbind result_bind mret result_ret app validated].
  rewrite validated_app. by destruct (is_valid _).
Qed.

Lemma completion_calls_process_request env request :
  completion_calls (trace (process_request env request)) =
  match outcome (retrieve env request) with
  | Raise _ => []
  | Ok items =>
    match convert_items env items [] ∅ with
    | Raise _ => []
    | Ok cv =>
      [completion_request env
         (build_prompt (build_context request cv.1) (AgentRequest.query request))]
    end
  end.
Proof.
  rewrite process_request_trace. cbn [completion_calls].
  rewrite completion_calls_app, completion_calls_retrieve.
  destruct (outcome (retrieve env request)) as [items|e]; [|reflexivity].
  destruct (convert_items env items [] ∅) as [cv|e]; [|reflexivity].
  cbv zeta. cbn [app completion_calls]. f_equal.
  destruct (completion env _) as [ai|e]; [|reflexivity].
  cbn [completion_calls]. rewrite completion_calls_app.
  by destruct (is_valid _).
Qed.

(** *** Filters of a chapter request *)

Lemma apply_entries_union (entries : list (string * string))
    (base : gmap string string) :
  NoDup entries.*1 ->
  Spec.apply_entries base entries = list_to_map entries ∪ base.
Proof.
  unfold Spec.apply_entries.
  revert base. induction entries as [|[k v] entries IH]; intros base Hnd.
  - cbn. by rewrite (left_id_L (∅ : gmap string string) (∪)).
  - cbn [foldl fst snd fmap list_fmap] in *.
    apply NoDup_cons in Hnd as [Hk Hnd].
    rewrite IH by done. cbn [list_to_map foldr uncurry].
    apply map_eq. intros i.
    destruct (decide (k = i)) as [<-|Hne].
    + rewrite lookup_union_r by by apply not_elem_of_list_to_map_1.
      rewrite lookup_insert_eq. symmetry.
      apply lookup_union_Some_l, lookup_insert_eq.
    + destruct ((list_to_map entries : gmap string string) !! i) as [x|] eqn:Hi.
      * rewrite (lookup_union_Some_l _ _ _ x) by done. symmetry.
        apply lookup_union_Some_l. by rewrite lookup_insert_ne.
      * rewrite !lookup_union_r; rewrite ?lookup_insert_ne; done.
Qed.

Lemma merged_filters_union (c : string) (fs : option (gmap string string)) :
  Spec.merged_filters c fs = default ∅ fs ∪ {[ "chapter" := c ]}.
Proof.
  unfold Spec.merged_filters.
  rewrite apply_entries_union by apply NoDup_fst_map_to_list.
  by rewrite list_to_map_to_list.
Qed.

Lemma chapter_filters_merged request (c : string) :
  AgentRequest.chapter_filter request = Some c ->
  chapter_filters request = Spec.merged_filters c (AgentRequest.filters request).
Proof.
  intros Hc. rewrite merged_filters_union.
  unfold chapter_filters, held, dict_update, truthy_filters. rewrite Hc. cbn [default from_option id].
  destruct (AgentRequest.filters request) as [f|]; cbn [default from_option id].
  - case_bool_decide as Hf; cbn [negb]; [|reflexivity].
    subst f. by rewrite (left_id_L (∅ : gmap string string) (∪)).
  - by rewrite (left_id_L (∅ : gmap string string) (∪)).
Qed.

Lemma truthy_str_Some (s : string) : s <> "" -> Py.truthy_str (Some s) = true.
Proof.
  intros Hs. cbn. destruct (String.eqb_spec s ""); [done | reflexivity].
Qed.

(** C1 (amended): a chapter request whose [chapter_filter] is a non-empty
    string makes exactly one retrieval call, with the filters obtained by
    starting from [{"chapter": chapter_filter}] and applying
    [request.filters] last-write-wins.  So every key of [request.filters]
    keeps its value, any other key is looked up in the one-entry map, and
    ["chapter"] is mapped to [chapter_filter] unless [request.filters] has
    its own ["chapter"], which then wins. *)
Theorem chapter_request_filters env request (c : string) :
  AgentRequest.query_type request = CHAPTER_SPECIFIC ->
  AgentRequest.chapter_filter request = Some c ->
  c <> "" ->
  search_calls (trace (process_request env request)) =
    [mkSearchCall (AgentRequest.query request)
       (Some (Spec.merged_filters c (AgentRequest.filters request)))
       (AgentRequest.top_k request)]
  /\ (forall k : string,
        Spec.merged_filters c (AgentRequest.filters request) !! k =
        match AgentRequest.filters request ≫= (.!! k) with
        | Some v => Some v
        | None => ({[ "chapter" := c ]} : gmap string string) !! k
        end)
  /\ Spec.merged_filters c (AgentRequest.filters request) !! "chapter" =
     Some (default c (AgentRequest.filters request ≫= (.!! "chapter"))).
Proof.
  intros Hqt Hc Hne.
  assert (Hlookup : forall k : string,
    Spec.merged_filters c (AgentRequest.filters request) !! k =
    match AgentRequest.filters request ≫= (.!! k) with
    | Some v => Some v
    | None => ({[ "chapter" := c ]} : gmap string string) !! k
    end).
  { intros k. rewrite merged_filters_union.
    destruct (AgentRequest.filters request) as [f|]; cbn [default from_option id mbind option_bind].
    - destruct (f !! k) as [v|] eqn:Hk;
        [by apply lookup_union_Some_l | by apply lookup_union_r].
    - by rewrite (left_id_L (∅ : gmap string string) (∪)). }
  split; [| split; [exact Hlookup |]].
  - rewrite search_calls_process_request, retrieve_chapter, trace_call_search;
      [| done | rewrite Hc; by apply truthy_str_Some].
    cbn [search_calls]. by rewrite (chapter_filters_merged request c).
  - rewrite Hlookup.
    destruct (AgentRequest.filters request ≫= (.!! "chapter")); cbn [default from_option id];
      [reflexivity | apply lookup_singleton_eq].
Qed.

Lemma chapter_request_filters_witness :
  search_calls (trace (process_request Demo.env Demo.chapter_three)) =
    [mkSearchCall "What is this book about?"
       (Some (Spec.merged_filters "3" (Some {[ "chapter" := "4"; "lang" := "en" ]})))
       5]
  /\ Spec.merged_filters "3" (Some {[ "chapter" := "4"; "lang" := "en" ]})
       !! "chapter" = Some "4".
Proof.
  destruct (chapter_request_filters Demo.env Demo.chapter_three "3")
    as (Hcall & _ & Hchapter); [reflexivity | reflexivity | discriminate |].
  split; [exact Hcall | exact Hchapter].
Defined.

(** C1 as stated fails when [chapter_filter] is set to the empty string:
    the request takes the default branch and retrieval is called without
    any filters. *)
Lemma blank_chapter_filter_searches_unfiltered :
  AgentRequest.query_type Demo.chapter_blank = CHAPTER_SPECIFIC
  /\ AgentRequest.chapter_filter Demo.chapter_blank = Some ""
  /\ search_calls (trace (process_request Demo.env Demo.chapter_blank)) =
       [mkSearchCall "What is this book about?" None 5]
  /\ search_calls (trace (process_request Demo.env Demo.chapter_blank)) <>
       [mkSearchCall "What is this book about?"
          (Some (Spec.merged_filters ""
                   (AgentRequest.filters Demo.chapter_blank))) 5].
Proof.
  assert (Hcalls :
    search_calls (trace (process_request Demo.env Demo.chapter_blank)) =
    [mkSearchCall "What is this book about?" None 5]) by (vm_compute; reflexivity).
  split; [reflexivity |]. split; [reflexivity |]. split; [exact Hcalls |].
  rewrite Hcalls. discriminate.
Qed.

(** C10: a chapter request whose [chapter_filter] is absent or empty takes
    the default branch: the one retrieval call carries no filters argument,
    and the whole run (trace and outcome) is the same whatever
    [request.filters] holds. *)
Theorem chapter_request_without_chapter_ignores_filters env request :
  AgentRequest.query_type request = CHAPTER_SPECIFIC ->
  Py.truthy_str (AgentRequest.chapter_filter request) = false ->
  search_calls (trace (process_request env request)) =
    [mkSearchCall (AgentRequest.query request) None (AgentRequest.top_k request)]
  /\ forall fs, process_request env (with_filters request fs)
                = process_request env request.
Proof.
  intros Hqt Hc. split.
  - by rewrite search_calls_process_request, retrieve_chapter_default,
      trace_call_search.
  - intros fs. unfold process_request, process_request_body.
    rewrite !retrieve_chapter_default by done. reflexivity.
Qed.

Lemma chapter_request_without_chapter_ignores_filters_witness :
  search_calls (trace (process_request Demo.env Demo.chapter_blank)) =
    [mkSearchCall "What is this book about?" None 5]
  /\ process_request Demo.env
       (with_filters Demo.chapter_blank (Some {[ "chapter" := "9" ]}))
     = process_request Demo.env Demo.chapter_blank.
Proof.
  destruct (chapter_request_without_chapter_ignores_filters
              Demo.env Demo.chapter_blank) as [Hcall Hsame];
    [reflexivity | reflexivity |].
  split; [exact Hcall | apply Hsame].
Defined.

Lemma process_request_Ok env request resp :
  outcome (process_request env request) = Ok resp ->
  exists items chunks sources ai,
    outcome (retrieve env request) = Ok items
    /\ convert_items env items [] ∅ = Ok (chunks, sources)
    /\ completion env
         (completion_request env
            (build_prompt (build_context request chunks)
               (AgentRequest.query request))) = Ok ai
    /\ resp = assemble request (resolve_conversation_id env request) ai chunks
                sources (compute_confidence chunks).
Proof.
  rewrite process_request_outcome.
  destruct (outcome (retrieve env request)) as [items|e]; [|discriminate].
  cbn [mbind result_bind].
  destruct (convert_items env items [] ∅) as [[chunks sources]|e] eqn:Hcv;
    [|discriminate].
  cbn [mbind result_bind fst snd].
  destruct (completion env _) as [ai|e] eqn:Hai; [|discriminate].
  cbn [mbind result_bind mret result_ret]. intros [= <-].
  by exists items, chunks, sources, ai.
Qed.

(** C9 (amended): the response carries the request's [conversation_id]
    when that is a non-empty string; when it is absent or the empty string
    the response carries ["conv_"] followed by the decimal seconds of the
    clock. *)
Theorem response_conversation_id env request resp :
  outcome (process_request env request) = Ok resp ->
  (forall s, AgentRequest.conversation_id request = Some s -> s <> "" ->
     AgentResponse.conversation_id resp = s)
  /\ (Py.truthy_str (AgentRequest.conversation_id request) = false ->
      AgentResponse.conversation_id resp = "conv_" +:+ Py.str_int (now env)).
Proof.
  intros (items & chunks & sources & ai & _ & _ & _ & ->)%process_request_Ok.
  cbn [assemble AgentResponse.conversation_id].
  unfold resolve_conversation_id, Py.or_str, Py.truthy_str.
  split.
  - intros s -> Hs. by destruct (String.eqb_spec s "").
  - destruct (AgentRequest.conversation_id request) as [s|]; [|done].
    by destruct (String.eqb s "").
Qed.

Lemma response_conversation_id_witness :
  exists resp,
    outcome (process_request Demo.env Demo.notes) = Ok resp
    /\ AgentResponse.conversation_id resp = "session-7".
Proof.
  eexists. split; [vm_compute; reflexivity |].
  refine (proj1 (response_conversation_id Demo.env Demo.notes _ _)
            "session-7" _ _);
    [vm_compute; reflexivity | reflexivity | discriminate].
Defined.

(** C9 as stated fails when the provided [conversation_id] is the empty
    string: the response carries an id synthesized from the clock. *)
Lemma blank_conversation_id_is_replaced :
  AgentRequest.conversation_id Demo.blank_conversation = Some ""
  /\ exists resp,
       outcome (process_request Demo.env Demo.blank_conversation) = Ok resp
       /\ AgentResponse.conversation_id resp = "conv_1700000123"
       /\ AgentResponse.conversation_id resp <> "".
Proof.
  split; [reflexivity |].
  eexists. split; [vm_compute; reflexivity |].
  split; [reflexivity | discriminate].
Qed.

(** C4 (amended): a [USER_CONTEXT] request makes no retrieval call; the
    response it returns has no retrieved chunks, and it does return one
    whenever the completion call succeeds; and when [user_context] is a
    non-empty string the context text is ["User Context: "] followed by
    it, which is the context of the one prompt sent to the completion
    collaborator. *)
Theorem user_context_request_skips_retrieval env request :
  AgentRequest.query_type request = USER_CONTEXT ->
  search_calls (trace (process_request env request)) = []
  /\ (forall resp, outcome (process_request env request) = Ok resp ->
        AgentResponse.retrieved_chunks resp = [])
  /\ (forall ai,
        completion env
          (completion_request env
             (build_prompt (build_context request [])
                (AgentRequest.query request))) = Ok ai ->
        exists resp, outcome (process_request env request) = Ok resp
                     /\ AgentResponse.response resp = ai)
  /\ (forall uc, AgentRequest.user_context request = Some uc -> uc <> "" ->
        build_context request [] = "User Context: " +:+ uc
        /\ completion_calls (trace (process_request env request)) =
             [completion_request env
                (grounded_prompt ("User Context: " +:+ uc)
                   (AgentRequest.query request))]).
Proof.
  intros Hqt.
  pose proof (retrieve_user_context env request Hqt) as Hret.
  split; [| split; [| split]].
  - by rewrite search_calls_process_request, Hret.
  - intros resp Hresp. rewrite process_request_outcome, Hret in Hresp.
    cbn [outcome snd mbind result_bind convert_items fst] in Hresp.
    destruct (completion env _); [|discriminate].
    cbn in Hresp. by injection Hresp as <-.
  - intros ai Hai. rewrite process_request_outcome, Hret.
    cbn [outcome snd mbind result_bind convert_items fst].
    rewrite Hai. cbn [mbind result_bind mret result_ret]. by eexists.
  - intros uc Huc Hne.
    assert (Hctx : build_context request [] = "User Context: " +:+ uc).
    { unfold build_context. rewrite Hqt, Huc.
      rewrite truthy_str_Some by done. reflexivity. }
    split; [exact Hctx |].
    rewrite completion_calls_process_request, Hret.
    cbn [outcome snd convert_items fst]. by rewrite Hctx.
Qed.

Lemma user_context_request_skips_retrieval_witness :
  search_calls (trace (process_request Demo.env Demo.notes)) = []
  /\ build_context Demo.notes [] = "User Context: chapter 1 notes".
Proof.
  destruct (user_context_request_skips_retrieval Demo.env Demo.notes)
    as (Hnone & _ & _ & Hctx); [reflexivity |].
  split; [exact Hnone |].
  exact (proj1 (Hctx "chapter 1 notes" eq_refl ltac:(discriminate))).
Defined.

(** C4 as stated fails when the supplied [user_context] is the empty
    string: the context text is empty, and the prompt sent is the one for
    missing context, which holds no ["User Context: "] at all. *)
Lemma blank_user_context_gives_no_context :
  AgentRequest.query_type Demo.notes_blank = USER_CONTEXT
  /\ AgentRequest.user_context Demo.notes_blank = Some ""
  /\ build_context Demo.notes_blank [] = ""
  /\ build_context Demo.notes_blank [] <> "User Context: " +:+ ""
  /\ completion_calls (trace (process_request Demo.env Demo.notes_blank)) =
       [completion_request Demo.env (ungrounded_prompt "What is this book about?")]
  /\ Py.contains "User Context: "
       (ungrounded_prompt "What is this book about?") = false.
Proof.
  split; [reflexivity |]. split; [reflexivity |]. split; [reflexivity |].
  split; [discriminate |]. split; vm_compute; reflexivity.
Qed.




(** *** The conversion loop *)

Lemma to_chunk_source_url env item chunk :
  to_chunk env item = Ok chunk ->
  RawItem.source_url item = Some (RetrievedChunk.source_url chunk).
Proof.
  unfold to_chunk, getitem.
  destruct (RawItem.id item); [|discriminate].
  destruct (RawItem.content item); [|discriminate].
  destruct (RawItem.source_url item) as [url|]; [|discriminate].
  destruct (RawItem.similarity_score item); [|discriminate].
  destruct (RawItem.confidence_score item); [|discriminate].
  destruct (RawItem.retrieval_timestamp item) as [raw|]; [|discriminate].
  cbn [mbind result_bind].
  destruct (match raw with TsText s => _ | TsDatetime t => _ end);
    [|discriminate].
  cbn. by intros [= <-].
Qed.

Lemma convert_items_spec env items chunks0 sources0 chunks sources :
  convert_items env items chunks0 sources0 = Ok (chunks, sources) ->
  exists new,
    chunks = chunks0 ++ new
    /\ sources = sources0 ∪ list_to_set (map RetrievedChunk.source_url new)
    /\ length new = length items.
Proof.
  revert chunks0 sources0.
  induction items as [|item items IH]; intros chunks0 sources0; cbn [convert_items].
  - intros [= <- <-]. exists []. rewrite app_nil_r. split; [done |].
    split; [cbn [map list_to_set]; by rewrite (right_id_L (∅ : gset string) (∪)) | done].
  - destruct (to_chunk env item) as [chunk|e] eqn:Hchunk; [|discriminate].
    cbn [mbind result_bind].
    rewrite (to_chunk_source_url _ _ _ Hchunk). cbn [getitem mbind result_bind].
    intros (new & -> & -> & Hlen)%IH.
    exists (chunk :: new). rewrite <- app_assoc. split; [done |].
    split; [cbn [map list_to_set]; by rewrite (assoc_L (∪)) | cbn; by rewrite Hlen].
Qed.

Lemma remove_dups_length_le (l : list string) :
  length (remove_dups l) <= length l.
Proof.
  induction l as [|x l IH]; cbn; [done |].
  case_decide; cbn; lia.
Qed.

Lemma elements_list_to_set_length (l : list string) :
  length (elements (list_to_set l : gset string)) = length (remove_dups l).
Proof.
  assert ((list_to_set l : gset string) = list_to_set (remove_dups l)) as ->.
  { apply set_eq. intros x.
    by rewrite !elem_of_list_to_set, elem_of_remove_dups. }
  apply Permutation_length, elements_list_to_set, NoDup_remove_dups.
Qed.

(** C3: in the response [process_request] returns, [source_attribution]
    holds exactly the [source_url] values of the retrieved chunks, each
    once: it has the same members as the list of the chunks' urls and no
    duplicates, its length is the number of distinct urls and at most the
    number of chunks, and it is empty when no chunk was retrieved. *)
Theorem response_source_attribution env request resp :
  outcome (process_request env request) = Ok resp ->
  (forall url,
     url ∈ AgentResponse.source_attribution resp <->
     url ∈ map RetrievedChunk.source_url (AgentResponse.retrieved_chunks resp))
  /\ NoDup (AgentResponse.source_attribution resp)
  /\ length (AgentResponse.source_attribution resp) =
     length (Spec.distinct
               (map RetrievedChunk.source_url (AgentResponse.retrieved_chunks resp)))
  /\ length (AgentResponse.source_attribution resp) <=
     length (AgentResponse.retrieved_chunks resp)
  /\ (AgentResponse.retrieved_chunks resp = [] ->
      AgentResponse.source_attribution resp = []).
Proof.
  intros (items & chunks & sources & ai & _ & Hcv & _ & ->)%process_request_Ok.
  apply convert_items_spec in Hcv as (new & -> & -> & _).
  cbn [app assemble AgentResponse.source_attribution AgentResponse.retrieved_chunks].
  rewrite (left_id_L (∅ : gset string) (∪)).
  split; [| split; [| split; [| split]]].
  - intros url. by rewrite elem_of_elements, elem_of_list_to_set.
  - apply NoDup_elements.
  - apply elements_list_to_set_length.
  - rewrite elements_list_to_set_length.
    etrans; [apply remove_dups_length_le |]. by rewrite length_map.
  - intros ->. cbn. apply elements_empty.
Qed.

Lemma response_source_attribution_witness :
  exists resp,
    outcome (process_request Demo.env Demo.general) = Ok resp
    /\ length (AgentResponse.retrieved_chunks resp) = 3
    /\ length (AgentResponse.source_attribution resp) = 2
    /\ NoDup (AgentResponse.source_attribution resp).
Proof.
  eexists. split; [vm_compute; reflexivity |].
  split; [reflexivity |]. split; [reflexivity |].
  refine (proj1 (proj2 (response_source_attribution Demo.env Demo.general _ _))).
  vm_compute; reflexivity.
Defined.

Lemma convert_items_Forall2 env items chunks0 sources0 chunks sources :
  convert_items env items chunks0 sources0 = Ok (chunks, sources) ->
  exists new,
    chunks = chunks0 ++ new
    /\ Forall2 (fun item chunk => to_chunk env item = Ok chunk) items new.
Proof.
  revert chunks0 sources0.
  induction items as [|item items IH]; intros chunks0 sources0; cbn [convert_items].
  - intros [= <- <-]. exists []. by rewrite app_nil_r.
  - destruct (to_chunk env item) as [chunk|e] eqn:Hchunk; [|discriminate].
    cbn [mbind result_bind].
    rewrite (to_chunk_source_url _ _ _ Hchunk). cbn [getitem mbind result_bind].
    intros (new & -> & Hnew)%IH.
    exists (chunk :: new). rewrite <- app_assoc. split; [done |].
    by constructor.
Qed.

Lemma retrieve_records env request items :
  outcome (retrieve env request) = Ok items ->
  if bool_decide (AgentRequest.query_type request = USER_CONTEXT)
  then items = [] /\ search_calls (trace (retrieve env request)) = []
  else exists c,
         search_calls (trace (retrieve env request)) = [c]
         /\ search env c = Ok items.
Proof.
  assert (Hcall : forall c,
    outcome (call_search env c) = Ok items ->
    exists c', search_calls (trace (call_search env c)) = [c']
               /\ search env c' = Ok items).
  { intros c Hc. exists c. rewrite trace_call_search. split; [done |].
    revert Hc. unfold call_search. rewrite outcome_bind. by cbn. }
  destruct (AgentRequest.query_type request) eqn:Hqt.
  - rewrite bool_decide_eq_false_2 by done.
    unfold retrieve. rewrite Hqt. apply Hcall.
  - rewrite bool_decide_eq_false_2 by done.
    destruct (Py.truthy_str (AgentRequest.chapter_filter request)) eqn:Hc.
    + rewrite retrieve_chapter by done. apply Hcall.
    + rewrite retrieve_chapter_default by done. apply Hcall.
  - rewrite bool_decide_eq_true_2 by done.
    rewrite retrieve_user_context by done. by intros [= <-].
Qed.

(** *** The flags of the response *)

(** C5: in the response [process_request] returns,
    [has_sufficient_context] is true exactly when some chunk was retrieved
    or the query type is [USER_CONTEXT], and
    [hallucination_prevention_applied] is true.  The retrieved chunks are
    those of the run's retrieval: the conversions, one for one, of the
    records the single retrieval call returned (no call and no record for
    [USER_CONTEXT]); so the flag is true exactly when that call returned a
    record or the query type is [USER_CONTEXT]. *)
Theorem response_flags env request resp :
  outcome (process_request env request) = Ok resp ->
  AgentResponse.has_sufficient_context resp =
    (match AgentResponse.retrieved_chunks resp with [] => false | _ :: _ => true end
     || bool_decide (AgentRequest.query_type request = USER_CONTEXT))
  /\ AgentResponse.hallucination_prevention_applied resp = true
  /\ exists items,
       Forall2 (fun item chunk => to_chunk env item = Ok chunk)
         items (AgentResponse.retrieved_chunks resp)
       /\ AgentResponse.has_sufficient_context resp =
            (match items with [] => false | _ :: _ => true end
             || bool_decide (AgentRequest.query_type request = USER_CONTEXT))
       /\ if bool_decide (AgentRequest.query_type request = USER_CONTEXT)
          then items = []
               /\ search_calls (trace (process_request env request)) = []
          else exists c,
                 search_calls (trace (process_request env request)) = [c]
                 /\ search env c = Ok items.
Proof.
  intros (items & chunks & sources & ai & Hitems & Hcv & _ & ->)%process_request_Ok.
  apply convert_items_Forall2 in Hcv as (new & -> & Hall).
  cbn [app assemble AgentResponse.retrieved_chunks
       AgentResponse.has_sufficient_context
       AgentResponse.hallucination_prevention_applied].
  split; [by destruct new |]. split; [done |].
  exists items. split; [done |]. split.
  - by destruct Hall.
  - rewrite search_calls_process_request. by apply retrieve_records.
Qed.

Lemma response_flags_witness :
  (exists resp,
     outcome (process_request Demo.env Demo.general) = Ok resp
     /\ length (AgentResponse.retrieved_chunks resp) = 3
     /\ AgentResponse.has_sufficient_context resp = true
     /\ AgentResponse.hallucination_prevention_applied resp = true)
  /\ (exists resp,
        outcome (process_request Demo.env_empty Demo.general) = Ok resp
        /\ AgentResponse.retrieved_chunks resp = []
        /\ AgentResponse.has_sufficient_context resp = false)
  /\ (exists resp,
        outcome (process_request Demo.env Demo.notes) = Ok resp
        /\ AgentResponse.retrieved_chunks resp = []
        /\ AgentResponse.has_sufficient_context resp = true).
Proof.
  split; [| split].
  - eexists. split; [vm_compute; reflexivity |]. split; [reflexivity |].
    destruct (response_flags Demo.env Demo.general _ eq_refl)
      as (Hflag & Halways & _).
    split; [exact Hflag | exact Halways].
  - eexists. split; [vm_compute; reflexivity |]. split; [reflexivity |].
    exact (proj1 (response_flags Demo.env_empty Demo.general _ eq_refl)).
  - eexists. split; [vm_compute; reflexivity |]. split; [reflexivity |].
    exact (proj1 (response_flags Demo.env Demo.notes _ eq_refl)).
Defined.

(** *** The confidence score *)









Lemma ltb_leb (x y : float) :
  (x <? y)%float = true -> (x <=? y)%float = true.
Proof.
  rewrite FloatAxioms.leb_spec, FloatAxioms.ltb_spec. unfold SFleb, SFltb.
  by destruct (SFcompare _ _) as [[]|].
Qed.


(** [min(1.0, x)] is at most 1, whatever [x] is (NaN included). *)
Lemma py_min_one_le (x : float) : (py_min 1 x <=? 1)%float = true.
Proof.
  unfold py_min. destruct (x <? 1)%float eqn:Hlt; [by apply ltb_leb |].
  by vm_compute.
Qed.

Lemma compute_confidence_le_one (chunks : list RetrievedChunk.t) :
  (compute_confidence chunks <=? 1)%float = true.
Proof.
  unfold compute_confidence. destruct chunks; [by vm_compute |].
  apply py_min_one_le.
Qed.





(** The same three scores give the same confidence when the sum carries
    its correction term. *)
Example three_tenths_compensated :
  py_sum_compensated [0.1%float; 0.1%float; 0.1%float]
  = py_sum [0.1%float; 0.1%float; 0.1%float]
  /\ py_min 1 (py_sum_compensated [0.1%float; 0.1%float; 0.1%float]
               / float_of_len 3)%float
     = 0.10000000000000002%float.
Proof. split; vm_compute; reflexivity. Qed.

(** *** Runs that return *)

(** When retrieval, conversion and completion all succeed,
    [process_request] returns the assembled response. *)
Lemma process_request_returns env request items chunks sources ai :
  outcome (retrieve env request) = Ok items ->
  convert_items env items [] ∅ = Ok (chunks, sources) ->
  completion env
    (completion_request env
       (build_prompt (build_context request chunks)
          (AgentRequest.query request))) = Ok ai ->
  outcome (process_request env request) =
  Ok (assemble request (resolve_conversation_id env request) ai chunks sources
        (compute_confidence chunks)).
Proof.
  intros Hitems Hcv Hai. rewrite process_request_outcome, Hitems.
  cbn [mbind result_bind]. rewrite Hcv. cbn [mbind result_bind fst snd].
  by rewrite Hai.
Qed.

(** The scenario of a general question for which retrieval finds nothing. *)
Example general_request_without_chunks :
  exists resp,
    outcome (process_request Demo.env_empty Demo.general) = Ok resp
    /\ AgentResponse.confidence_score resp = 0.3%float
    /\ AgentResponse.has_sufficient_context resp = false
    /\ AgentResponse.source_attribution resp = [].
Proof. eexists. split; [vm_compute; reflexivity |]. by repeat split. Qed.

End PipelineFacts.

(** ** More on the session store *)

Module SessionFacts.
Import Sessions.

(** X1: creating a session and then looking up its id returns that very
    session, whose id is the generated one; the lookup of every other id is
    what it was before. *)
Theorem create_then_get (sessions : gmap string ConversationSession)
    (uuid : string) (created : Z) :
  get_conversation_session (create_conversation_session sessions uuid created).2 uuid
    = Some (create_conversation_session sessions uuid created).1
  /\ session_id (create_conversation_session sessions uuid created).1 = uuid
  /\ forall other, other <> uuid ->
       get_conversation_session
         (create_conversation_session sessions uuid created).2 other
       = get_conversation_session sessions other.
Proof.
  unfold get_conversation_session, create_conversation_session. cbn [fst snd].
  split; [apply lookup_insert_eq | split; [reflexivity |]].
  intros other Hne. by rewrite lookup_insert_ne.
Qed.

(** X2: when the generated id is not yet in the map, creating a session
    grows the map by one entry, and clearing that id afterwards returns
    true and gives back the map as it was before the creation. *)
Theorem create_then_clear (sessions : gmap string ConversationSession)
    (uuid : string) (created : Z) :
  sessions !! uuid = None ->
  clear_conversation (create_conversation_session sessions uuid created).2 uuid
    = (true, sessions)
  /\ size (create_conversation_session sessions uuid created).2 = S (size sessions).
Proof.
  intros Hfresh. unfold clear_conversation, create_conversation_session.
  cbn [fst snd]. rewrite lookup_insert_eq. split.
  - f_equal. rewrite delete_insert_eq. by apply delete_id.
  - by apply map_size_insert_None.
Qed.

(** X3: after clearing an id, looking it up finds nothing and clearing it
    again returns false without changing the map; clearing an id that was
    present shrinks the map by one entry. *)
Theorem clear_then_get (sessions : gmap string ConversationSession) (id : string) :
  get_conversation_session (clear_conversation sessions id).2 id = None
  /\ clear_conversation (clear_conversation sessions id).2 id
     = (false, (clear_conversation sessions id).2)
  /\ (forall s, sessions !! id = Some s ->
        size (clear_conversation sessions id).2 = pred (size sessions)).
Proof.
  unfold get_conversation_session, clear_conversation.
  destruct (sessions !! id) as [s|] eqn:Hid; cbn [fst snd].
  - rewrite lookup_delete_eq. repeat split.
    intros s' _. by apply map_size_delete_Some.
  - rewrite Hid. repeat split. intros s' [=].
Qed.

(** X4: when the generated id is already in the map, creating a session
    replaces the stored session: the map keeps its size and the old session
    is no longer reachable under that id. *)
Theorem create_overwrites (sessions : gmap string ConversationSession)
    (uuid : string) (created : Z) (old : ConversationSession) :
  sessions !! uuid = Some old ->
  size (create_conversation_session sessions uuid created).2 = size sessions
  /\ get_conversation_session
       (create_conversation_session sessions uuid created).2 uuid
     = Some (mkSession uuid created).
Proof.
  intros Hold. unfold get_conversation_session, create_conversation_session.
  cbn [fst snd]. split; [|apply lookup_insert_eq].
  by apply map_size_insert_Some.
Qed.

Lemma create_then_clear_witness :
  clear_conversation
    (create_conversation_session Demo.sessions "s3" 1700000100).2 "s3"
  = (true, Demo.sessions).
Proof.
  exact (proj1 (create_then_clear Demo.sessions "s3" 1700000100 eq_refl)).
Defined.

Lemma create_overwrites_witness :
  get_conversation_session
    (create_conversation_session Demo.sessions "s1" 1700000100).2 "s1"
  = Some (mkSession "s1" 1700000100).
Proof.
  exact (proj2 (create_overwrites Demo.sessions "s1" 1700000100
                  (mkSession "s1" 1700000000) eq_refl)).
Defined.

End SessionFacts.

(** ** More on the request pipeline *)

Module PipelineMore.
Import Service PipelineFacts.

(** *** Calls made by a run *)

Lemma retrieve_general env request :
  AgentRequest.query_type request = GENERAL ->
  retrieve env request =
  call_search env
    (mkSearchCall (AgentRequest.query request)
       (Some (or_filters (AgentRequest.filters request) ∅))
       (AgentRequest.top_k request)).
Proof. intros Hqt. unfold retrieve. by rewrite Hqt. Qed.

Lemma or_filters_default (fs : option (gmap string string)) :
  or_filters fs ∅ = default ∅ fs.
Proof.
  destruct fs as [f|]; cbn; [|done]. case_bool_decide; by subst.
Qed.

(** X5: a [GENERAL] request makes exactly one retrieval call, with the
    request's query and [top_k] and with [request.filters] when that is a
    non-empty dict and the empty dict otherwise (never without a filters
    argument); [chapter_filter] plays no part in the run. *)
Theorem general_request_filters env request :
  AgentRequest.query_type request = GENERAL ->
  search_calls (trace (process_request env request)) =
    [mkSearchCall (AgentRequest.query request)
       (Some (default ∅ (AgentRequest.filters request)))
       (AgentRequest.top_k request)]
  /\ forall c, process_request env
                 (AgentRequest.mk (AgentRequest.query request) GENERAL c
                    (AgentRequest.filters request) (AgentRequest.top_k request)
                    (AgentRequest.user_context request)
                    (AgentRequest.conversation_id request))
               = process_request env request.
Proof.
  intros Hqt. split.
  - by rewrite search_calls_process_request, retrieve_general, trace_call_search,
      or_filters_default.
  - intros c. destruct request as [q qt c0 fs k uc cid]. cbn in Hqt. subst qt.
    reflexivity.
Qed.

Lemma search_calls_retrieve_length env request :
  length (search_calls (trace (retrieve env request))) =
  if bool_decide (AgentRequest.query_type request = USER_CONTEXT) then 0 else 1.
Proof.
  destruct (AgentRequest.query_type request) eqn:Hqt.
  - by rewrite retrieve_general, trace_call_search.
  - destruct (Py.truthy_str (AgentRequest.chapter_filter request)) eqn:Hc.
    + by rewrite retrieve_chapter, trace_call_search.
    + by rewrite retrieve_chapter_default, trace_call_search.
  - by rewrite retrieve_user_context.
Qed.

Lemma general_request_filters_witness :
  search_calls (trace (process_request Demo.env Samples.filtered)) =
    [mkSearchCall "What is this book about?" (Some {[ "lang" := "en" ]}) 5].
Proof.
  exact (proj1 (general_request_filters Demo.env Samples.filtered eq_refl)).
Defined.

Lemma call_kinds_app tr1 tr2 :
  call_kinds (tr1 ++ tr2) = call_kinds tr1 ++ call_kinds tr2.
Proof. apply omap_app. Qed.

Lemma call_kinds_retrieve env request :
  call_kinds (trace (retrieve env request)) =
  if bool_decide (AgentRequest.query_type request = USER_CONTEXT) then []
  else [Retrieval].
Proof.
  destruct (AgentRequest.query_type request) eqn:Hqt.
  - by rewrite retrieve_general, trace_call_search.
  - destruct (Py.truthy_str (AgentRequest.chapter_filter request)) eqn:Hc.
    + by rewrite retrieve_chapter, trace_call_search.
    + by rewrite retrieve_chapter_default, trace_call_search.
  - by rewrite retrieve_user_context.
Qed.

Lemma call_kinds_process_request env request :
  call_kinds (trace (process_request env request)) =
  (if bool_decide (AgentRequest.query_type request = USER_CONTEXT) then []
   else [Retrieval]) ++
  match outcome (retrieve env request) with
  | Raise _ => []
  | Ok items =>
    match convert_items env items [] ∅ with
    | Raise _ => []
    | Ok cv =>
      Completion ::
      match completion env
              (completion_request env
                 (build_prompt (build_context request cv.1)
                    (AgentRequest.query request))) with
      | Raise _ => []
      | Ok _ => [Validation]
      end
    end
  end.
Proof.
  rewrite process_request_trace.
  change (call_kinds (?e :: ?l)) with (call_kinds l).
  rewrite call_kinds_app, call_kinds_retrieve. f_equal.
  destruct (outcome (retrieve env request)) as [items|e]; [|reflexivity].
  destruct (convert_items env items [] ∅) as [cv|e]; [|reflexivity].
  cbv zeta. destruct (completion env _) as [ai|e]; [|reflexivity].
  change (call_kinds (ECompletion ?c :: EValidate ?r :: ?l))
    with (Completion :: Validation :: call_kinds l).
  rewrite call_kinds_app. by destruct (is_valid _).
Qed.

(** X6: the calls of one run are made in pipeline order and none is
    repeated: their kinds form an initial part of retrieval, completion,
    validation (of completion, validation for a [USER_CONTEXT] request),
    and the whole of it when the run returns.  So retrieval is called
    exactly once (not at all for [USER_CONTEXT]), the completion and the
    validator at most once, the completion only after retrieval and the
    validator only after the completion. *)
Theorem calls_per_request env request :
  call_kinds (trace (process_request env request))
    `prefix_of` Spec.planned_calls (AgentRequest.query_type request)
  /\ (forall resp,
        outcome (process_request env request) = Ok resp ->
        call_kinds (trace (process_request env request)) =
        Spec.planned_calls (AgentRequest.query_type request))
  /\ length (search_calls (trace (process_request env request))) =
       (if bool_decide (AgentRequest.query_type request = USER_CONTEXT) then 0 else 1)
  /\ length (completion_calls (trace (process_request env request))) <= 1
  /\ length (validated (trace (process_request env request))) <= 1.
Proof.
  split; [| split; [| split]].
  - rewrite call_kinds_process_request.
    destruct (outcome (retrieve env request)) as [items|e];
      [destruct (convert_items env items [] ∅) as [cv|e];
       [destruct (completion env _) |] |];
      destruct (AgentRequest.query_type request); cbn;
      by eexists.
  - intros resp. rewrite process_request_outcome, call_kinds_process_request.
    destruct (outcome (retrieve env request)) as [items|e]; [|discriminate].
    cbn [mbind result_bind].
    destruct (convert_items env items [] ∅) as [cv|e]; [|discriminate].
    cbn [mbind result_bind].
    destruct (completion env _); [|discriminate].
    by destruct (AgentRequest.query_type request).
  - by rewrite search_calls_process_request, search_calls_retrieve_length.
  - rewrite completion_calls_process_request, validated_process_request,
      process_request_outcome.
    destruct (outcome (retrieve env request)) as [items|e]; cbn; [|lia].
    destruct (convert_items env items [] ∅) as [cv|e]; cbn; [|lia].
    destruct (completion env _); cbn; lia.
Qed.

(** A run that stops at a failing completion has called retrieval and the
    completion, in that order, and not the validator. *)
Example calls_of_failing_completion :
  call_kinds (trace (process_request Samples.failing_completion Demo.general))
  = [Retrieval; Completion].
Proof. vm_compute; reflexivity. Qed.

(** *** Failures *)

Lemma last_after {A} (x : A) (l t : list A) (y : A) :
  last t = Some y -> last (x :: l ++ t) = Some y.
Proof.
  intros Ht. change (x :: l ++ t) with ((x :: l) ++ t).
  rewrite last_app, Ht. reflexivity.
Qed.

Lemma process_request_last env request :
  last (trace (process_request env request)) =
  Some match outcome (process_request env request) with
       | Raise e => ELog ERROR (LogFailure e)
       | Ok resp =>
           ELog INFO (LogProcessed (AgentResponse.confidence_score resp)
                        (length (AgentResponse.retrieved_chunks resp)))
       end.
Proof.
  rewrite process_request_trace, process_request_outcome.
  apply last_after.
  destruct (outcome (retrieve env request)) as [items|e]; [|reflexivity].
  cbn [mbind result_bind].
  destruct (convert_items env items [] ∅) as [cv|e]; [|reflexivity].
  cbn [mbind result_bind]. cbv zeta.
  destruct (completion env _) as [ai|e]; [|reflexivity].
  cbn [mbind result_bind mret result_ret].
  change (?a :: ?b :: ?l ++ ?t) with ((a :: b :: l) ++ t).
  apply last_snoc.
Qed.

Lemma error_lines_app tr1 tr2 :
  error_lines (tr1 ++ tr2) = error_lines tr1 ++ error_lines tr2.
Proof. apply omap_app. Qed.

Lemma error_lines_retrieve env request :
  error_lines (trace (retrieve env request)) = [].
Proof.
  unfold retrieve. repeat case_match; rewrite ?trace_call_search; reflexivity.
Qed.

Lemma error_lines_process_request env request :
  error_lines (trace (process_request env request)) =
  match outcome (process_request env request) with
  | Raise e => [LogFailure e]
  | Ok _ => []
  end.
Proof.
  rewrite process_request_trace, process_request_outcome.
  change (error_lines (ELog INFO ?l :: ?tr)) with (error_lines tr).
  rewrite error_lines_app, error_lines_retrieve. cbn [app].
  destruct (outcome (retrieve env request)) as [items|e]; [|reflexivity].
  cbn [mbind result_bind].
  destruct (convert_items env items [] ∅) as [cv|e]; [|reflexivity].
  cbn [mbind result_bind]. cbv zeta.
  destruct (completion env _) as [ai|e]; [|reflexivity].
  cbn [mbind result_bind mret result_ret].
  change (error_lines (ECompletion ?c :: EValidate ?r :: ?tr))
    with (error_lines tr).
  rewrite error_lines_app. by destruct (is_valid _).
Qed.

(** X7: when [process_request] raises [e], it has logged exactly one line
    at level [ERROR], the one line 255 writes for [e], and that line is the
    last event of the run (the exception is logged once, then re-raised);
    a run that returns logs nothing at level [ERROR]. *)
Theorem failure_is_logged env request :
  (forall e,
     outcome (process_request env request) = Raise e ->
     error_lines (trace (process_request env request)) = [LogFailure e]
     /\ last (trace (process_request env request)) =
        Some (ELog ERROR (LogFailure e)))
  /\ (forall resp,
        outcome (process_request env request) = Ok resp ->
        error_lines (trace (process_request env request)) = []).
Proof.
  split.
  - intros e He. rewrite error_lines_process_request, process_request_last, He.
    done.
  - intros resp Hresp. by rewrite error_lines_process_request, Hresp.
Qed.

(** A failing retrieval: one error line, at the end of the trace. *)
Example failing_search_is_logged_once :
  error_lines (trace (process_request Samples.failing_search Demo.general))
  = [LogFailure (CollaboratorError "connection refused")].
Proof. vm_compute; reflexivity. Qed.

Lemma retrieve_single_call env request c :
  search_calls (trace (retrieve env request)) = [c] ->
  retrieve env request = call_search env c.
Proof.
  destruct (AgentRequest.query_type request) eqn:Hqt.
  - rewrite retrieve_general, trace_call_search by done. by intros [= <-].
  - destruct (Py.truthy_str (AgentRequest.chapter_filter request)) eqn:Hc.
    + rewrite retrieve_chapter, trace_call_search by done. by intros [= <-].
    + rewrite retrieve_chapter_default, trace_call_search by done. by intros [= <-].
  - by rewrite retrieve_user_context.
Qed.

Lemma outcome_call_search env c : outcome (call_search env c) = search env c.
Proof. unfold call_search. rewrite outcome_bind. reflexivity. Qed.

(** X8: when the retrieval call raises, [process_request] raises the same
    exception; neither the completion nor the validator is called. *)
Theorem retrieval_failure_aborts env request c e :
  search_calls (trace (process_request env request)) = [c] ->
  search env c = Raise e ->
  outcome (process_request env request) = Raise e
  /\ completion_calls (trace (process_request env request)) = []
  /\ validated (trace (process_request env request)) = [].
Proof.
  rewrite search_calls_process_request. intros Hcall%retrieve_single_call Hraise.
  assert (Hout : outcome (retrieve env request) = Raise e)
    by by rewrite Hcall, outcome_call_search.
  assert (Hfail : outcome (process_request env request) = Raise e)
    by by rewrite process_request_outcome, Hout.
  split; [exact Hfail | split].
  - by rewrite completion_calls_process_request, Hout.
  - by rewrite validated_process_request, Hfail.
Qed.

Lemma retrieval_failure_aborts_witness :
  outcome (process_request Samples.failing_search Demo.general)
    = Raise (CollaboratorError "connection refused")
  /\ completion_calls (trace (process_request Samples.failing_search Demo.general))
     = [].
Proof.
  destruct (retrieval_failure_aborts Samples.failing_search Demo.general
              (mkSearchCall "What is this book about?" (Some ∅) 5)
              (CollaboratorError "connection refused"))
    as (Hout & Hnone & _); [vm_compute; reflexivity | reflexivity |].
  split; [exact Hout | exact Hnone].
Defined.

(** X9: when the completion call raises, [process_request] raises the same
    exception and the validator is never called: no response is made up
    from the retrieved chunks alone. *)
Theorem completion_failure_aborts env request e :
  (exists c, completion_calls (trace (process_request env request)) = [c]
             /\ completion env c = Raise e) ->
  outcome (process_request env request) = Raise e
  /\ validated (trace (process_request env request)) = [].
Proof.
  intros (c & Hcalls & Hraise).
  rewrite completion_calls_process_request in Hcalls.
  assert (Hfail : outcome (process_request env request) = Raise e).
  { rewrite process_request_outcome.
    destruct (outcome (retrieve env request)) as [items|e']; [|done].
    cbn [mbind result_bind].
    destruct (convert_items env items [] ∅) as [cv|e']; [|done].
    cbn [mbind result_bind]. injection Hcalls as <-. by rewrite Hraise. }
  split; [exact Hfail |]. by rewrite validated_process_request, Hfail.
Qed.

Lemma completion_failure_aborts_witness :
  outcome (process_request Samples.failing_completion Demo.general)
    = Raise (CollaboratorError "rate limited").
Proof.
  refine (proj1 (completion_failure_aborts Samples.failing_completion
                   Demo.general (CollaboratorError "rate limited") _)).
  eexists. split; [vm_compute; reflexivity | reflexivity].
Defined.

(** *** Conversion of the raw records *)

(** X11: a record that lacks required keys fails with the [KeyError] of
    the first missing one in the order id, content, source_url,
    similarity_score, confidence_score, retrieval_timestamp. *)
Theorem to_chunk_first_missing_key env item :
  (RawItem.id item = None -> to_chunk env item = Raise (KeyError "id"))
  /\ (is_Some (RawItem.id item) -> RawItem.content item = None ->
      to_chunk env item = Raise (KeyError "content"))
  /\ (is_Some (RawItem.id item) -> is_Some (RawItem.content item) ->
      RawItem.source_url item = None ->
      to_chunk env item = Raise (KeyError "source_url"))
  /\ (is_Some (RawItem.id item) -> is_Some (RawItem.content item) ->
      is_Some (RawItem.source_url item) ->
      RawItem.similarity_score item = None ->
      to_chunk env item = Raise (KeyError "similarity_score"))
  /\ (is_Some (RawItem.id item) -> is_Some (RawItem.content item) ->
      is_Some (RawItem.source_url item) ->
      is_Some (RawItem.similarity_score item) ->
      RawItem.confidence_score item = None ->
      to_chunk env item = Raise (KeyError "confidence_score"))
  /\ (is_Some (RawItem.id item) -> is_Some (RawItem.content item) ->
      is_Some (RawItem.source_url item) ->
      is_Some (RawItem.similarity_score item) ->
      is_Some (RawItem.confidence_score item) ->
      RawItem.retrieval_timestamp item = None ->
      to_chunk env item = Raise (KeyError "retrieval_timestamp")).
Proof.
  unfold to_chunk, getitem.
  repeat split; repeat (intros [? ->] || intros ->); reflexivity.
Qed.

(** X12: the retrieved chunks of a returned response are the conversions
    of the records retrieval gave, one for one and in the same order; none
    is dropped, added or reordered. *)
Theorem chunks_follow_records env request resp :
  outcome (process_request env request) = Ok resp ->
  exists items,
    outcome (retrieve env request) = Ok items
    /\ Forall2 (fun item chunk => to_chunk env item = Ok chunk)
         items (AgentResponse.retrieved_chunks resp)
    /\ length (AgentResponse.retrieved_chunks resp) = length items.
Proof.
  intros (items & chunks & sources & ai & Hitems & Hcv & _ & ->)%process_request_Ok.
  apply convert_items_Forall2 in Hcv as (new & -> & Hall).
  exists items. cbn [app assemble AgentResponse.retrieved_chunks].
  split; [done | split; [done |]]. symmetry. by eapply Forall2_length.
Qed.

Lemma chunks_follow_records_witness :
  exists resp,
    outcome (process_request Demo.env Demo.general) = Ok resp
    /\ length (AgentResponse.retrieved_chunks resp) = 3.
Proof.
  eexists. split; [vm_compute; reflexivity |].
  destruct (chunks_follow_records Demo.env Demo.general _ eq_refl)
    as (items & Hitems & _ & Hlen).
  vm_compute in Hitems. injection Hitems as <-. exact Hlen.
Defined.

Lemma convert_items_first_failure env good bad rest chunks0 sources0 e :
  Forall (fun item => exists chunk, to_chunk env item = Ok chunk) good ->
  to_chunk env bad = Raise e ->
  convert_items env (good ++ bad :: rest) chunks0 sources0 = Raise e.
Proof.
  intros Hgood Hbad. revert chunks0 sources0.
  induction Hgood as [|item good [chunk Hchunk] _ IH]; intros chunks0 sources0;
    cbn [app convert_items].
  - by rewrite Hbad.
  - rewrite Hchunk. cbn [mbind result_bind].
    rewrite (to_chunk_source_url _ _ _ Hchunk). cbn [getitem mbind result_bind].
    apply IH.
Qed.

(** X13: when a record fails to convert and every record before it
    converts, [process_request] raises that record's exception, whatever
    follows it; the completion is not called, so no answer is built from
    the records that did convert. *)
Theorem bad_record_aborts env request good bad rest e :
  outcome (retrieve env request) = Ok (good ++ bad :: rest) ->
  Forall (fun item => exists chunk, to_chunk env item = Ok chunk) good ->
  to_chunk env bad = Raise e ->
  outcome (process_request env request) = Raise e
  /\ completion_calls (trace (process_request env request)) = [].
Proof.
  intros Hitems Hgood Hbad.
  pose proof (convert_items_first_failure env good bad rest [] ∅ e Hgood Hbad)
    as Hcv.
  split.
  - rewrite process_request_outcome, Hitems. cbn [mbind result_bind].
    by rewrite Hcv.
  - by rewrite completion_calls_process_request, Hitems, Hcv.
Qed.

Lemma bad_record_aborts_witness :
  outcome (process_request Samples.env_broken Demo.general)
    = Raise (KeyError "content")
  /\ completion_calls (trace (process_request Samples.env_broken Demo.general))
     = [].
Proof.
  refine (bad_record_aborts Samples.env_broken Demo.general
            [Demo.item "https://book/ch1" 0.5%float] Samples.broken_item []
            (KeyError "content") _ _ _).
  - vm_compute; reflexivity.
  - constructor; [eexists; reflexivity | constructor].
  - reflexivity.
Defined.

(** *** The prompt *)

Lemma append_assoc (a b c : string) : (a +:+ b) +:+ c = a +:+ b +:+ c.
Proof.
  induction a as [|ch a IH]; [done |].
  change (String ch ((a +:+ b) +:+ c) = String ch (a +:+ b +:+ c)).
  by rewrite IH.
Qed.

Lemma append_empty_r (a : string) : a +:+ "" = a.
Proof.
  induction a as [|ch a IH]; [done |].
  change (String ch (a +:+ "") = String ch a). by rewrite IH.
Qed.

Lemma occurs_here (s rest : string) : Text.occurs_in s (s +:+ rest).
Proof. by exists "", rest. Qed.

Lemma occurs_at_end (s : string) : Text.occurs_in s s.
Proof. exists "", "". by rewrite append_empty_r. Qed.

Lemma occurs_later (p s t : string) :
  Text.occurs_in s t -> Text.occurs_in s (p +:+ t).
Proof. intros (b & a & ->). exists (p +:+ b), a. by rewrite append_assoc. Qed.

Lemma occurs_earlier (s t rest : string) :
  Text.occurs_in s t -> Text.occurs_in s (t +:+ rest).
Proof.
  intros (b & a & ->). exists b, (a +:+ rest). by rewrite !append_assoc.
Qed.

Lemma occurs_trans (s t u : string) :
  Text.occurs_in s t -> Text.occurs_in t u -> Text.occurs_in s u.
Proof.
  intros Hst (b & a & ->). by apply occurs_later, occurs_earlier.
Qed.

Ltac occurs s :=
  repeat first [ apply (occurs_here s) | apply (occurs_at_end s)
               | apply occurs_later ].

Lemma occurs_in_join (sep x : string) (l : list string) :
  x ∈ l -> Text.occurs_in x (Py.join sep l).
Proof.
  induction l as [|y l IH]; [by intros ?%elem_of_nil |].
  intros [->|Hin]%elem_of_cons; destruct l as [|z l]; cbn [Py.join].
  - apply occurs_at_end.
  - apply occurs_here.
  - by apply elem_of_nil in Hin.
  - by apply occurs_later, occurs_later, IH.
Qed.

Lemma query_occurs_in_prompt (context_text query : string) :
  Text.occurs_in query (build_prompt context_text query).
Proof.
  unfold build_prompt. destruct (String.eqb context_text "").
  - unfold ungrounded_prompt, line. rewrite !append_assoc. occurs query.
  - unfold grounded_prompt, line. rewrite !append_assoc. occurs query.
Qed.

Lemma context_occurs_in_prompt (context_text query : string) :
  context_text <> "" ->
  Text.occurs_in context_text (build_prompt context_text query).
Proof.
  intros Hne. unfold build_prompt.
  destruct (String.eqb_spec context_text ""); [done |].
  unfold grounded_prompt, line. rewrite !append_assoc. occurs context_text.
Qed.

Lemma ungrounded_prompt_iff (context_text query : string) :
  build_prompt context_text query = ungrounded_prompt query <->
  context_text = "".
Proof.
  unfold build_prompt.
  destruct (String.eqb_spec context_text "") as [->|Hne]; [done |].
  split; [| done]. intros Heq. exfalso. vm_compute in Heq. congruence.
Qed.

(** X14: the prompt always quotes the user's query; it is the prompt for
    missing context exactly when the context text is empty, and otherwise
    it quotes the context text in full. *)
Theorem prompt_quotes_query_and_context (context_text query : string) :
  Text.occurs_in query (build_prompt context_text query)
  /\ (build_prompt context_text query = ungrounded_prompt query <->
      context_text = "")
  /\ (context_text <> "" ->
      Text.occurs_in context_text (build_prompt context_text query)).
Proof.
  split; [apply query_occurs_in_prompt | split].
  - apply ungrounded_prompt_iff.
  - apply context_occurs_in_prompt.
Qed.

Lemma build_context_chunks request chunk chunks :
  build_context request (chunk :: chunks) <> "".
Proof.
  unfold build_context. cbn [map].
  destruct (map chunk_text chunks) as [|text texts]; cbn [Py.join];
    unfold chunk_text; discriminate.
Qed.

(** X15: every chunk of a returned response is quoted in the one prompt
    sent to the completion: its source url and its content both occur in
    it, and the prompt is not the one for missing context (also when the
    chunks' contents are empty texts). *)
Theorem chunks_are_quoted_in_prompt env request resp chunk :
  outcome (process_request env request) = Ok resp ->
  chunk ∈ AgentResponse.retrieved_chunks resp ->
  exists prompt,
    completion_calls (trace (process_request env request)) =
      [completion_request env prompt]
    /\ prompt <> ungrounded_prompt (AgentRequest.query request)
    /\ Text.occurs_in (RetrievedChunk.source_url chunk) prompt
    /\ Text.occurs_in (RetrievedChunk.content chunk) prompt.
Proof.
  intros (items & chunks & sources & ai & Hitems & Hcv & _ & ->)%process_request_Ok.
  cbn [assemble AgentResponse.retrieved_chunks]. intros Hin.
  eexists. split.
  { by rewrite completion_calls_process_request, Hitems, Hcv. }
  cbn [fst].
  assert (Hne : build_context request chunks <> "").
  { destruct chunks as [|c cs]; [by apply elem_of_nil in Hin |].
    apply build_context_chunks. }
  pose proof (context_occurs_in_prompt (build_context request chunks)
                (AgentRequest.query request) Hne) as Hctx.
  split; [by rewrite ungrounded_prompt_iff |].
  assert (Htext : Text.occurs_in (chunk_text chunk) (build_context request chunks)).
  { unfold build_context. destruct chunks as [|c cs]; [by apply elem_of_nil in Hin |].
    apply occurs_in_join. by apply list_elem_of_fmap_2. }
  split; (eapply occurs_trans; [| eapply occurs_trans; [exact Htext | exact Hctx]]);
    unfold chunk_text.
  - occurs (RetrievedChunk.source_url chunk).
  - occurs (RetrievedChunk.content chunk).
Qed.

Lemma chunks_are_quoted_in_prompt_witness :
  exists prompt,
    completion_calls (trace (process_request Demo.env Demo.general)) =
      [completion_request Demo.env prompt]
    /\ Text.occurs_in "https://book/ch2" prompt.
Proof.
  destruct (chunks_are_quoted_in_prompt Demo.env Demo.general _
              (RetrievedChunk.mk "c1" "Robots sense, plan and act."
                 "https://book/ch2" (Some "1") None 0.75%float 0.9%float
                 1700000000 ∅) eq_refl)
    as (prompt & Hcall & _ & Hurl & _).
  - vm_compute. apply list_elem_of_further, list_elem_of_here.
  - exists prompt. split; [exact Hcall | exact Hurl].
Defined.

(** *** The confidence score *)

(** X16: the confidence score of a returned response never exceeds 1,
    whatever similarity scores retrieval reports. *)
Theorem confidence_is_capped env request resp :
  outcome (process_request env request) = Ok resp ->
  (AgentResponse.confidence_score resp <=? 1)%float = true.
Proof.
  intros (items & chunks & sources & ai & _ & _ & _ & ->)%process_request_Ok.
  cbn [assemble AgentResponse.confidence_score].
  apply compute_confidence_le_one.
Qed.

Lemma confidence_is_capped_witness :
  exists resp,
    outcome (process_request Samples.env_high Demo.general) = Ok resp
    /\ (AgentResponse.confidence_score resp <=? 1)%float = true.
Proof.
  eexists. split; [vm_compute; reflexivity |].
  exact (confidence_is_capped Samples.env_high Demo.general _ eq_refl).
Defined.

(** X17: the confidence computed for a list of chunks depends on their
    similarity scores only: chunk lists with the same similarity scores get
    the same confidence, whatever their per-chunk confidence scores and
    other fields. *)
Theorem confidence_reads_similarity_only (chunks1 chunks2 : list RetrievedChunk.t) :
  map RetrievedChunk.similarity_score chunks1 =
  map RetrievedChunk.similarity_score chunks2 ->
  compute_confidence chunks1 = compute_confidence chunks2.
Proof.
  intros Hsims. unfold compute_confidence.
  assert (Hlen : length chunks1 = length chunks2).
  { rewrite <- (length_map RetrievedChunk.similarity_score chunks1), Hsims.
    apply length_map. }
  rewrite Hsims, Hlen.
  destruct chunks1, chunks2; try discriminate; reflexivity.
Qed.

Lemma confidence_reads_similarity_only_witness :
  compute_confidence [Samples.chunk 0.1%float]
  = compute_confidence [Samples.chunk 0.9%float].
Proof.
  exact (confidence_reads_similarity_only [Samples.chunk 0.1%float]
           [Samples.chunk 0.9%float] eq_refl).
Defined.

(** *** Fields a user-context request does not read *)

(** X18: the run of a [USER_CONTEXT] request (trace and outcome) does not
    depend on its [chapter_filter], [filters] or [top_k]. *)
Theorem user_context_request_ignores_search_fields env request
    (chapter : option string) (fs : option (gmap string string)) (k : Z) :
  AgentRequest.query_type request = USER_CONTEXT ->
  process_request env
    (AgentRequest.mk (AgentRequest.query request) USER_CONTEXT chapter fs k
       (AgentRequest.user_context request)
       (AgentRequest.conversation_id request))
  = process_request env request.
Proof.
  intros Hqt. destruct request as [q qt c0 fs0 k0 uc cid]. cbn in Hqt. subst qt.
  reflexivity.
Qed.

Lemma user_context_request_ignores_search_fields_witness :
  process_request Demo.env
    (Demo.request USER_CONTEXT (Some "3") (Some {[ "lang" := "en" ]})
       (Some "chapter 1 notes") (Some "session-7"))
  = process_request Demo.env Demo.notes.
Proof.
  exact (user_context_request_ignores_search_fields Demo.env Demo.notes
           (Some "3") (Some {[ "lang" := "en" ]}) 5 eq_refl).
Defined.

End PipelineMore.

(** ** Start-up *)

Module StartupFacts.
Import Startup.

Lemma load_all_no_override_lookup env_files (environ : gmap string string)
    (name : string) :
  load_all false env_files environ !! name =
  first_defined (environ :: map (fun entry => contents entry.2) env_files) name.
Proof.
  unfold load_all. revert environ.
  induction env_files as [|[which file] env_files IH]; intros environ;
    cbn [foldl map first_defined fst snd].
  - by destruct (environ !! name).
  - rewrite IH. cbn [first_defined].
    destruct file as [file|]; cbn [contents default from_option id load_dotenv].
    + destruct (environ !! name) as [v|] eqn:Hv.
      * by rewrite (lookup_union_Some_l _ _ _ v).
      * rewrite lookup_union_r by done. reflexivity.
    + rewrite lookup_empty. by destruct (environ !! name).
Qed.

Lemma load_all_override_lookup env_files (environ : gmap string string)
    (name : string) :
  load_all true env_files environ !! name =
  first_defined
    (reverse (map (fun entry => contents entry.2) env_files) ++ [environ]) name.
Proof.
  unfold load_all. revert environ.
  induction env_files as [|[which file] env_files IH]; intros environ;
    cbn [foldl map fst snd].
  - cbn. by destruct (environ !! name).
  - rewrite IH, reverse_cons, <- app_assoc. cbn [app].
    generalize (reverse (map (fun entry => contents entry.2) env_files)).
    intros maps. induction maps as [|m maps IHm]; cbn [app first_defined].
    + destruct file as [file|]; cbn [contents default from_option id load_dotenv].
      * destruct (file !! name) as [v|] eqn:Hv.
        -- by rewrite (lookup_union_Some_l _ _ _ v).
        -- rewrite lookup_union_r by done. by destruct (environ !! name).
      * rewrite lookup_empty. by destruct (environ !! name).
    + by rewrite IHm.
Qed.

(** X19: after the import-time loading ([override=False]) a variable has
    the value of the first of these that defines it: the process
    environment, the project-root file, the pipeline file, the agent's own
    file.  So the environment wins over every file, and the project-root
    file wins over the agent's own one. *)
Theorem import_time_precedence (files : EnvFiles)
    (environ : gmap string string) (name : string) :
  load_environment_variables files environ !! name =
  first_defined
    [environ; contents (project_root_env files); contents (pipeline_env files);
     contents (rag_agent_env files)] name.
Proof. unfold load_environment_variables. by rewrite load_all_no_override_lookup. Qed.

(** X20: after the loading done by the constructor ([override=True]) a
    variable has the value of the first of these that defines it: the
    agent's own file, the pipeline file, the project-root file, the
    process environment.  So every file wins over the environment, in the
    reverse of the import-time order. *)
Theorem init_time_precedence (files : EnvFiles) (ctors : Constructors)
    (cfg : Config.t) (environ : gmap string string) (name : string) :
  init_environ (init files ctors cfg environ) !! name =
  first_defined
    [contents (rag_agent_env files); contents (pipeline_env files);
     contents (project_root_env files); environ] name.
Proof.
  assert (init_environ (init files ctors cfg environ)
          = load_all true (env_files files) environ) as ->.
  { unfold init, init_environ. repeat case_match; reflexivity. }
  by rewrite load_all_override_lookup.
Qed.

Lemma validate_Ok_iff (o u k c : option string) :
  Config.validate (Config.mk o u k c) = Ok tt <->
  Py.truthy_str o = true /\ Py.truthy_str u = true
  /\ Py.truthy_str k = true /\ Py.truthy_str c = true.
Proof.
  rewrite ConfigFacts.validate_by_flags.
  destruct (Py.truthy_str o), (Py.truthy_str u), (Py.truthy_str k),
    (Py.truthy_str c); cbn; split; (done || by intros (? & ? & ? & ?)).
Qed.

Lemma truthy_str_true_iff (o : option string) :
  Py.truthy_str o = true <-> exists value, o = Some value /\ value <> "".
Proof.
  destruct o as [s|]; cbn.
  - destruct (String.eqb_spec s ""); cbn; split.
    + discriminate.
    + intros (v & [= <-] & Hne). done.
    + intros _. by exists s.
    + done.
  - split; [discriminate | by intros (v & [=] & _)].
Qed.

Lemma loaded_keys_valid (files : EnvFiles) (environ : gmap string string) :
  Config.validate (class_attributes (load_environment_variables files environ))
    = Ok tt <->
  forall name, In name Config.mandatory ->
    exists value,
      first_defined
        [environ; contents (project_root_env files); contents (pipeline_env files);
         contents (rag_agent_env files)] name = Some value
      /\ value <> "".
Proof.
  unfold class_attributes, load_environment_variables.
  rewrite validate_Ok_iff, !truthy_str_true_iff, !load_all_no_override_lookup.
  cbn [env_files map snd]. split.
  - intros (Ho & Hu & Hk & Hc) name Hin. cbn [Config.mandatory In] in Hin.
    by destruct Hin as [<-|[<-|[<-|[<-|[]]]]].
  - intros Hall. repeat split; apply Hall; cbn; tauto.
Qed.

Lemma class_body_keys b environ cls :
  class_body b environ = Ok cls -> Class.keys cls = class_attributes environ.
Proof.
  unfold class_body.
  destruct (py_int b (getenv environ "RETRIEVAL_TIMEOUT" "30"));
    cbn [mbind result_bind]; [| discriminate].
  destruct (py_int b (getenv environ "FASTAPI_PORT" "8001"));
    cbn [mbind result_bind]; [| discriminate].
  destruct (py_float b (getenv environ "MIN_CONFIDENCE_SCORE" "0.3"));
    cbn [mbind result_bind]; [| discriminate].
  destruct (py_float b (getenv environ "MIN_SIMILARITY_SCORE" "0.5"));
    cbn [mbind result_bind]; [| discriminate].
  destruct (py_int b (getenv environ "MAX_RESPONSE_TOKENS" "1000"));
    cbn [mbind result_bind]; [| discriminate].
  by intros [= <-].
Qed.

(** The class body returns exactly when all five conversions do, and
    otherwise raises what the first failing one raises. *)
Lemma class_body_conversions b environ :
  match class_body b environ with
  | Ok _ =>
      forall setting, In setting numeric_settings ->
        convert b environ setting = Ok tt
  | Raise e =>
      exists before setting after,
        numeric_settings = before ++ setting :: after
        /\ (forall s, In s before -> convert b environ s = Ok tt)
        /\ convert b environ setting = Raise e
  end.
Proof.
  unfold class_body.
  destruct (py_int b (getenv environ "RETRIEVAL_TIMEOUT" "30")) as [v1|e] eqn:H1;
    cbn [mbind result_bind].
  2:{ exists [], ("RETRIEVAL_TIMEOUT", "30", AsInt), (tail numeric_settings).
      split; [reflexivity |]. split; [by intros s [] |].
      unfold convert. cbn [fst snd]. by rewrite H1. }
  destruct (py_int b (getenv environ "FASTAPI_PORT" "8001")) as [v2|e] eqn:H2;
    cbn [mbind result_bind].
  2:{ exists (take 1 numeric_settings), ("FASTAPI_PORT", "8001", AsInt),
        (drop 2 numeric_settings).
      split; [reflexivity |]. split.
      - intros s [<-|[]]. unfold convert. cbn [fst snd]. by rewrite H1.
      - unfold convert. cbn [fst snd]. by rewrite H2. }
  destruct (py_float b (getenv environ "MIN_CONFIDENCE_SCORE" "0.3"))
    as [v3|e] eqn:H3; cbn [mbind result_bind].
  2:{ exists (take 2 numeric_settings), ("MIN_CONFIDENCE_SCORE", "0.3", AsFloat),
        (drop 3 numeric_settings).
      split; [reflexivity |]. split.
      - intros s [<-|[<-|[]]]; unfold convert; cbn [fst snd];
          by rewrite ?H1, ?H2.
      - unfold convert. cbn [fst snd]. by rewrite H3. }
  destruct (py_float b (getenv environ "MIN_SIMILARITY_SCORE" "0.5"))
    as [v4|e] eqn:H4; cbn [mbind result_bind].
  2:{ exists (take 3 numeric_settings), ("MIN_SIMILARITY_SCORE", "0.5", AsFloat),
        (drop 4 numeric_settings).
      split; [reflexivity |]. split.
      - intros s [<-|[<-|[<-|[]]]]; unfold convert; cbn [fst snd];
          by rewrite ?H1, ?H2, ?H3.
      - unfold convert. cbn [fst snd]. by rewrite H4. }
  destruct (py_int b (getenv environ "MAX_RESPONSE_TOKENS" "1000"))
    as [v5|e] eqn:H5; cbn [mbind result_bind].
  2:{ exists (take 4 numeric_settings), ("MAX_RESPONSE_TOKENS", "1000", AsInt), [].
      split; [reflexivity |]. split.
      - intros s [<-|[<-|[<-|[<-|[]]]]]; unfold convert; cbn [fst snd];
          by rewrite ?H1, ?H2, ?H3, ?H4.
      - unfold convert. cbn [fst snd]. by rewrite H5. }
  intros s [<-|[<-|[<-|[<-|[<-|[]]]]]]; unfold convert; cbn [fst snd];
    by rewrite ?H1, ?H2, ?H3, ?H4, ?H5.
Qed.

(** X21: importing [config.py] succeeds exactly when [int] or [float]
    accepts the text of each of the five numeric settings (the loaded
    environment's value, or the default); otherwise the import raises what
    the first refused conversion raises, in class-body order, and there is
    no class to validate.  When the import succeeds, the class passes
    [Config.validate] exactly when each of the four mandatory variables has
    a non-empty value in the first place that defines it (environment, then
    project-root file, then pipeline file, then the agent's file); in
    particular a mandatory variable that the environment sets to the empty
    text makes validation fail whatever the files hold. *)
Theorem imported_config_is_valid_iff (b : Builtins) (files : EnvFiles)
    (environ : gmap string string) :
  ((exists cls, import_config b files environ = Ok cls) <->
   forall setting, In setting numeric_settings ->
     convert b (load_environment_variables files environ) setting = Ok tt)
  /\ (forall e,
        import_config b files environ = Raise e ->
        exists before setting after,
          numeric_settings = before ++ setting :: after
          /\ (forall s, In s before ->
                convert b (load_environment_variables files environ) s = Ok tt)
          /\ convert b (load_environment_variables files environ) setting
             = Raise e)
  /\ (forall cls,
        import_config b files environ = Ok cls ->
        (Config.validate (Class.keys cls) = Ok tt <->
         forall name, In name Config.mandatory ->
           exists value,
             first_defined
               [environ; contents (project_root_env files);
                contents (pipeline_env files);
                contents (rag_agent_env files)] name = Some value
             /\ value <> "")
        /\ (forall name, In name Config.mandatory -> environ !! name = Some "" ->
            exists msg,
              Config.validate (Class.keys cls) = Raise (ValueError msg))).
Proof.
  unfold import_config.
  pose proof (class_body_conversions b (load_environment_variables files environ))
    as Hbody.
  split; [| split].
  - destruct (class_body b _) as [cls|e]; split.
    + by intros _.
    + intros _. by exists cls.
    + by intros [cls [=]].
    + intros Hall. destruct Hbody as (before & setting & after & Hsplit & _ & He).
      rewrite Hall in He; [done |]. rewrite Hsplit. apply in_elt.
  - intros e He. by rewrite He in Hbody.
  - intros cls Hcls. rewrite (class_body_keys _ _ _ Hcls).
    split; [apply loaded_keys_valid |].
    intros name Hin Hempty.
    destruct (Config.validate (class_attributes _)) as [[]|e] eqn:Hv.
    + destruct (proj1 (loaded_keys_valid files environ) Hv name Hin)
        as (value & Hvalue & Hne).
      cbn [first_defined] in Hvalue. rewrite Hempty in Hvalue. congruence.
    + revert Hv. unfold class_attributes.
      rewrite ConfigFacts.validate_by_flags.
      repeat case_match; intros [= <-]; by eexists.
Qed.

(** With the sample files and environment every setting takes its default
    and the import gives a class that validates. *)
Example import_with_defaults :
  exists cls,
    import_config Samples.builtins Samples.files Samples.environ = Ok cls
    /\ Class.RETRIEVAL_TIMEOUT cls = 30%Z
    /\ Class.MIN_CONFIDENCE_SCORE cls = 0.3%float
    /\ Config.validate (Class.keys cls) = Ok tt.
Proof. eexists. split; [vm_compute; reflexivity |]. by vm_compute. Qed.

(** With [RETRIEVAL_TIMEOUT=abc] the import itself raises, although all
    four mandatory variables are set. *)
Example import_fails_on_bad_timeout :
  import_config Samples.builtins Samples.files Samples.environ_bad_timeout
  = Raise (ValueError "invalid literal for int() with base 10: 'abc'")
  /\ Config.validate
       (class_attributes
          (load_environment_variables Samples.files Samples.environ_bad_timeout))
     = Ok tt.
Proof. split; vm_compute; reflexivity. Qed.

(** *** The constructor *)

Lemma init_invalid files ctors cfg environ e :
  Config.validate cfg = Raise e ->
  init files ctors cfg environ =
  (loaded_events (env_files files) ++ [ConfigInvalid e],
   load_all true (env_files files) environ, Raise e).
Proof. intros Hv. unfold init. by rewrite Hv. Qed.

Lemma openai_calls_app l1 l2 :
  openai_calls (l1 ++ l2) = openai_calls l1 ++ openai_calls l2.
Proof.
  induction l1 as [|[] l1 IH]; cbn; rewrite ?IH; reflexivity.
Qed.

Lemma retrieval_tool_calls_app l1 l2 :
  retrieval_tool_calls (l1 ++ l2) = retrieval_tool_calls l1 + retrieval_tool_calls l2.
Proof.
  induction l1 as [|[] l1 IH]; cbn; rewrite ?IH; reflexivity.
Qed.

Lemma openai_calls_loaded env_files : openai_calls (loaded_events env_files) = [].
Proof.
  unfold loaded_events.
  induction env_files as [|[which [file|]] env_files IH]; cbn; done.
Qed.

Lemma retrieval_tool_calls_loaded env_files :
  retrieval_tool_calls (loaded_events env_files) = 0.
Proof.
  unfold loaded_events.
  induction env_files as [|[which [file|]] env_files IH]; cbn; done.
Qed.

(** X22: when the configuration does not validate, the constructor raises
    the validation error and builds neither the completion client nor the
    retrieval tool. *)
Theorem init_rejects_invalid_config files ctors cfg environ e :
  Config.validate cfg = Raise e ->
  init_outcome (init files ctors cfg environ) = Raise e
  /\ openai_calls (init_events (init files ctors cfg environ)) = []
  /\ retrieval_tool_calls (init_events (init files ctors cfg environ)) = 0.
Proof.
  intros Hv. rewrite (init_invalid _ _ _ _ _ Hv).
  unfold init_outcome, init_events. cbn [fst snd].
  rewrite openai_calls_app, retrieval_tool_calls_app, openai_calls_loaded,
    retrieval_tool_calls_loaded.
  done.
Qed.

Lemma valid_config_has_llm_key cfg :
  Config.validate cfg = Ok tt ->
  Py.truthy_str (Config.OPENROUTER_API_KEY cfg) = true.
Proof. destruct cfg as [o u k c]. by intros (Ho & _)%validate_Ok_iff. Qed.

Lemma or_opt_truthy (a b : option string) :
  Py.truthy_str b = true ->
  exists key, or_opt a b = Some key /\ key <> ""
              /\ Py.truthy_str (or_opt a b) = true.
Proof.
  intros Hb. unfold or_opt. destruct (Py.truthy_str a) eqn:Ha.
  - apply truthy_str_true_iff in Ha as Ha'. destruct Ha' as (key & -> & Hne).
    by exists key.
  - apply truthy_str_true_iff in Hb as Hb'. destruct Hb' as (key & -> & Hne).
    by exists key.
Qed.

Lemma init_rejects_invalid_config_witness :
  init_outcome (init Samples.files Samples.ctors Samples.cfg_no_cohere Samples.environ)
  = Raise (ValueError "COHERE_API_KEY must be set for embeddings").
Proof.
  exact (proj1 (init_rejects_invalid_config Samples.files Samples.ctors
                  Samples.cfg_no_cohere Samples.environ _ eq_refl)).
Defined.

Lemma init_valid files ctors cfg environ :
  Config.validate cfg = Ok tt ->
  exists key,
    or_opt (init_environ (init files ctors cfg environ) !! "OPENROUTER_API_KEY")
      (Config.OPENROUTER_API_KEY cfg) = Some key
    /\ key <> ""
    /\ openai_calls (init_events (init files ctors cfg environ)) =
         [mkOpenAIArgs key "https://openrouter.ai/api/v1"]
    /\ init_outcome (init files ctors cfg environ) =
       match openai ctors (mkOpenAIArgs key "https://openrouter.ai/api/v1") with
       | Some e => Raise e
       | None =>
           match retrieval_tool ctors with
           | Some e => Raise e
           | None =>
               Ok (mkServiceState cfg
                     (mkOpenAIArgs key "https://openrouter.ai/api/v1") ∅)
           end
       end.
Proof.
  intros Hv.
  destruct (or_opt_truthy
              (load_all true (env_files files) environ !! "OPENROUTER_API_KEY")
              (Config.OPENROUTER_API_KEY cfg) (valid_config_has_llm_key cfg Hv))
    as (key & Hkey & Hne & Htruthy).
  exists key. unfold init, init_environ, init_events, init_outcome, make_client.
  rewrite Hv. cbn zeta. rewrite Htruthy, Hkey.
  cbn [negb Service.held default from_option id].
  destruct (openai ctors _) as [e1|]; cbn [fst snd];
    [| destruct (retrieval_tool ctors) as [e2|]; cbn [fst snd]];
    (split; [done |]); (split; [done |]); (split; [| done]);
    rewrite openai_calls_app, openai_calls_loaded; reflexivity.
Qed.

(** X23: when the configuration validates, the constructor always calls
    [OpenAI] once, with a non-empty API key and the OpenRouter base url; the
    key is the environment's value after the files were loaded when that is
    non-empty and the configuration's value otherwise.  The constructor
    then fails only if [OpenAI] or the retrieval tool fails, so its error
    about a key that is not set cannot occur. *)
Theorem init_always_has_api_key files ctors cfg environ :
  Config.validate cfg = Ok tt ->
  exists key,
    or_opt (init_environ (init files ctors cfg environ) !! "OPENROUTER_API_KEY")
      (Config.OPENROUTER_API_KEY cfg) = Some key
    /\ key <> ""
    /\ openai_calls (init_events (init files ctors cfg environ)) =
         [mkOpenAIArgs key "https://openrouter.ai/api/v1"]
    /\ (forall e,
          init_outcome (init files ctors cfg environ) = Raise e ->
          openai ctors (mkOpenAIArgs key "https://openrouter.ai/api/v1") = Some e
          \/ retrieval_tool ctors = Some e).
Proof.
  intros Hv.
  destruct (init_valid files ctors cfg environ Hv)
    as (key & Hkey & Hne & Hcalls & Hout).
  exists key. split; [done | split; [done | split; [done |]]].
  intros e. rewrite Hout.
  destruct (openai ctors _) as [e1|]; [intros [= <-]; by left |].
  destruct (retrieval_tool ctors) as [e2|]; [intros [= <-]; by right | done].
Qed.

Lemma init_always_has_api_key_witness :
  openai_calls
    (init_events (init Samples.files Samples.ctors Demo.cfg_complete Samples.environ))
  = [mkOpenAIArgs "sk-agent" "https://openrouter.ai/api/v1"].
Proof.
  destruct (init_always_has_api_key Samples.files Samples.ctors
              Demo.cfg_complete Samples.environ eq_refl)
    as (key & Hkey & _ & Hcalls & _).
  vm_compute in Hkey. injection Hkey as <-. exact Hcalls.
Defined.

(** X24: a service the constructor returns has the validated configuration,
    a client built with a non-empty key for the OpenRouter url, and an
    empty session map: every lookup finds nothing and every clear returns
    false. *)
Theorem constructed_service_is_fresh files ctors cfg environ svc :
  init_outcome (init files ctors cfg environ) = Ok svc ->
  Config.validate (config svc) = Ok tt
  /\ config svc = cfg
  /\ api_key (client svc) <> ""
  /\ base_url (client svc) = "https://openrouter.ai/api/v1"
  /\ sessions svc = ∅
  /\ (forall id,
        Sessions.get_conversation_session (sessions svc) id = None
        /\ clear_conversation (sessions svc) id = (false, sessions svc)).
Proof.
  intros Hok.
  destruct (Config.validate cfg) as [[]|e] eqn:Hv;
    [| by rewrite (init_invalid files ctors cfg environ e Hv) in Hok].
  destruct (init_valid files ctors cfg environ Hv)
    as (key & _ & Hne & _ & Hout).
  rewrite Hout in Hok.
  destruct (openai ctors _); [discriminate |].
  destruct (retrieval_tool ctors); [discriminate |].
  injection Hok as <-. cbn [config client sessions api_key base_url].
  repeat split; done.
Qed.

Lemma constructed_service_is_fresh_witness :
  exists svc,
    init_outcome (init Samples.files Samples.ctors Demo.cfg_complete Samples.environ)
      = Ok svc
    /\ sessions svc = ∅.
Proof.
  eexists. split; [vm_compute; reflexivity |].
  refine (proj1 (proj2 (proj2 (proj2 (proj2
            (constructed_service_is_fresh Samples.files Samples.ctors
               Demo.cfg_complete Samples.environ _ _)))))).
  vm_compute; reflexivity.
Defined.

End StartupFacts.

(** ** The Qdrant connection check *)

Module ConnectionFacts.
Import ConnectionTest.

(** X25: [test_qdrant_connection] reports success exactly when the url and
    the API key are set to non-empty texts, the collections can be listed,
    and the expected collection (by default ["book_content"]) is either
    not among them or can be fetched.  A missing collection is therefore
    still reported as success. *)
Theorem qdrant_test_succeeds_iff (environ : gmap string string) (qdrant : Qdrant) :
  test_qdrant_connection environ qdrant = true <->
  Py.truthy_str (environ !! "QDRANT_URL") = true
  /\ Py.truthy_str (environ !! "QDRANT_API_KEY") = true
  /\ exists names,
       get_collections qdrant = Ok names
       /\ (default "book_content" (environ !! "QDRANT_COLLECTION_NAME") ∈ names ->
           get_collection qdrant
             (default "book_content" (environ !! "QDRANT_COLLECTION_NAME")) = None).
Proof.
  unfold test_qdrant_connection.
  destruct (Py.truthy_str (environ !! "QDRANT_URL")); cbn [negb orb];
    [| split; [done | by intros (? & _)]].
  destruct (Py.truthy_str (environ !! "QDRANT_API_KEY")); cbn [negb orb];
    [| split; [done | by intros (_ & ? & _)]].
  destruct (get_collections qdrant) as [names|e];
    [| split; [done | by intros (_ & _ & names & ? & _)]].
  set (name := default "book_content" (environ !! "QDRANT_COLLECTION_NAME")).
  assert (Hexists : existsb (fun n => String.eqb n name) names = true <->
                    name ∈ names).
  { rewrite existsb_exists, list_elem_of_In. split.
    - by intros (n & Hin & ->%String.eqb_eq).
    - intros Hin. exists name. by rewrite String.eqb_refl. }
  destruct (existsb _ names) eqn:Hex.
  - destruct (get_collection qdrant name) as [e|] eqn:Hget.
    + split; [done |]. intros (_ & _ & names' & [= <-] & Hnone).
      assert (Hin : name ∈ names) by by apply Hexists.
      by specialize (Hnone Hin).
    + split; [| done]. intros _. repeat split. by exists names.
  - split; [| done]. intros _. repeat split. exists names. split; [done |].
    intros Hin%Hexists. done.
Qed.

Lemma qdrant_test_succeeds_iff_witness :
  test_qdrant_connection Samples.qdrant_environ Samples.qdrant_without_collection
  = true.
Proof.
  apply (proj2 (qdrant_test_succeeds_iff Samples.qdrant_environ
                  Samples.qdrant_without_collection)).
  split; [reflexivity | split; [reflexivity |]].
  eexists. split; [reflexivity |].
  intros Hin. vm_compute in Hin.
  apply list_elem_of_singleton in Hin. discriminate.
Defined.

End ConnectionFacts.
